(** * Openpilot-Deepdive: pose localisation, window sampling and the
      truncated-BPTT training loop

    A shallow embedding of [data.py] ([PlanningDataset.__getitem__] and
    [Comma2k19SequenceDataset.__getitem__]) and of [main.py] (the
    training driver [main]), followed by the properties of the
    specification that can be decided on them.

    Numeric conventions.  Python integers are [Z].  Floating-point
    scalars (numpy [float64]/[float32], torch tensors) are idealised as
    real numbers: rounding, and the cast [astype(np.float32)], are the
    identity in this model.  Where the finiteness of a value matters
    (the training loss) the value is an [fval], a real or a non-finite
    float (NaN, +Inf, -Inf).  Where the dtype of a tensor matters (the
    labels of the planning dataset) the tensor is [int64] or [float32],
    and the scalar [1e-2] is taken at its [float32] value. *)

From Stdlib Require Import Reals ZArith List Bool String Lia Lra.
Import ListNotations.

(** ** Python: exceptions, results, slices, the random source *)

Module Py.

(** The exceptions the modelled code can raise.  [SequenceTooShort] is
    the [RuntimeError] of [data.py] l.211 (message "... is too short",
    with the two lengths it prints); [VideoNotOpened] is the bare
    [RuntimeError] of l.198; [ValueError_low_ge_high] is what
    [np.random.randint] raises on an empty range; [ValueError_ragged] is
    what [torch.tensor] raises on rows of different lengths. *)
Inductive exn : Type :=
| VideoNotOpened
| SequenceTooShort (seq_length required : Z)
| ValueError_low_ge_high
| ValueError_ragged
| IndexError
| ZeroDivisionError
| AttributeError.

Inductive result (A : Type) : Type :=
| Ok (a : A)
| Raise (e : exn).
Arguments Ok {A} a.
Arguments Raise {A} e.

Definition bind {A B : Type} (c : result A) (k : A -> result B) : result B :=
  match c with
  | Ok a => k a
  | Raise e => Raise e
  end.

(** [for x in xs: ys.append(f x)] where [f] may raise. *)
Fixpoint mapM {A B : Type} (f : A -> result B) (xs : list A) : result (list B) :=
  match xs with
  | [] => Ok []
  | x :: rest =>
      bind (f x) (fun y => bind (mapM f rest) (fun ys => Ok (y :: ys)))
  end.

(** [a[i]] for a non-negative index. *)
Definition index {A : Type} (a : list A) (i : nat) : result A :=
  match nth_error a i with
  | Some x => Ok x
  | None => Raise IndexError
  end.

(** [a[i:j]] for non-negative bounds: Python clips both bounds to the
    length and returns the empty list when [j <= i]. *)
Definition slice {A : Type} (a : list A) (i j : nat) : list A :=
  firstn (j - i) (skipn i a).

(** [a[i:j]] for Python integers of either sign: a negative bound
    counts from the end, and both are clipped to the length. *)
Definition clip_index (n : nat) (i : Z) : nat :=
  if (i <? 0)%Z then Z.to_nat (Z.max 0 (i + Z.of_nat n))
  else Nat.min (Z.to_nat i) n.

Definition slice_z {A : Type} (a : list A) (i j : Z) : list A :=
  slice a (clip_index (List.length a) i) (clip_index (List.length a) j).

(** [range(n)]. *)
Definition range (n : Z) : list nat := seq 0 (Z.to_nat n).

(** [np.random.randint(low, high)]: an integer of the half-open range
    [low, high), and [ValueError] when the range is empty.  The
    generator is an explicit argument: [draw] is the raw integer it
    produces, reduced into the range. *)
Definition randint (draw low high : Z) : result Z :=
  if (low <? high)%Z then Ok (low + draw mod (high - low))%Z
  else Raise ValueError_low_ge_high.

End Py.

Import Py.

Declare Scope py_scope.
Notation "x <- c ;; k" := (Py.bind c (fun x => k))
  (at level 61, c at next level, right associativity) : py_scope.
Open Scope py_scope.

(** ** numpy: 3-vectors, quaternions, 3x3 matrices *)

Module Np.

Open Scope R_scope.

(** A row of a [(n, 3)] array. *)
Record vec3 : Type := mkvec { vx : R; vy : R; vz : R }.

(** A row of the [(n, 4)] array of orientations, scalar part first. *)
Record quat : Type := mkquat { q0 : R; q1 : R; q2 : R; q3 : R }.

(** A [(3, 3)] array; [mIJ] is the entry at row [I], column [J]. *)
Record mat3 : Type := mkmat {
  m00 : R; m01 : R; m02 : R;
  m10 : R; m11 : R; m12 : R;
  m20 : R; m21 : R; m22 : R
}.

Definition vzero : vec3 := mkvec 0 0 0.

Definition vadd (a b : vec3) : vec3 :=
  mkvec (vx a + vx b) (vy a + vy b) (vz a + vz b).

Definition vsub (a b : vec3) : vec3 :=
  mkvec (vx a - vx b) (vy a - vy b) (vz a - vz b).

(** [M.T] *)
Definition transpose (m : mat3) : mat3 :=
  mkmat (m00 m) (m10 m) (m20 m)
        (m01 m) (m11 m) (m21 m)
        (m02 m) (m12 m) (m22 m).

(** The matrix-vector product [M . v]: component [i] is
    [sum_j M[i][j] * v[j]]. *)
Definition mat_vec (m : mat3) (v : vec3) : vec3 :=
  mkvec (m00 m * vx v + m01 m * vy v + m02 m * vz v)
        (m10 m * vx v + m11 m * vy v + m12 m * vz v)
        (m20 m * vx v + m21 m * vy v + m22 m * vz v).

Definition mat_mul (a b : mat3) : mat3 :=
  mkmat (m00 a * m00 b + m01 a * m10 b + m02 a * m20 b)
        (m00 a * m01 b + m01 a * m11 b + m02 a * m21 b)
        (m00 a * m02 b + m01 a * m12 b + m02 a * m22 b)
        (m10 a * m00 b + m11 a * m10 b + m12 a * m20 b)
        (m10 a * m01 b + m11 a * m11 b + m12 a * m21 b)
        (m10 a * m02 b + m11 a * m12 b + m12 a * m22 b)
        (m20 a * m00 b + m21 a * m10 b + m22 a * m20 b)
        (m20 a * m01 b + m21 a * m11 b + m22 a * m21 b)
        (m20 a * m02 b + m21 a * m12 b + m22 a * m22 b).

Definition identity : mat3 := mkmat 1 0 0 0 1 0 0 0 1.

(** [np.einsum('ij,kj->ki', m, d)]: entry [(k, i)] of the result is
    [sum_j m[i][j] * d[k][j]], so row [k] is [m . d[k]]. *)
Definition einsum_ij_kj_ki (m : mat3) (d : list vec3) : list vec3 :=
  map (fun dk =>
         mkvec (m00 m * vx dk + m01 m * vy dk + m02 m * vz dk)
               (m10 m * vx dk + m11 m * vy dk + m12 m * vz dk)
               (m20 m * vx dk + m21 m * vy dk + m22 m * vz dk)) d.

(** [a - a[i]] for an [(n, 3)] array [a] and one of its rows
    (broadcast over the rows). *)
Definition sub_row (a : list vec3) (r : vec3) : list vec3 :=
  map (fun p => vsub p r) a.

(** Squared norm and Hamilton product of quaternions. *)
Definition qnorm2 (q : quat) : R :=
  q0 q * q0 q + q1 q * q1 q + q2 q * q2 q + q3 q * q3 q.

Definition qmul (a b : quat) : quat :=
  mkquat (q0 a * q0 b - q1 a * q1 b - q2 a * q2 b - q3 a * q3 b)
         (q0 a * q1 b + q1 a * q0 b + q2 a * q3 b - q3 a * q2 b)
         (q0 a * q2 b - q1 a * q3 b + q2 a * q0 b + q3 a * q1 b)
         (q0 a * q3 b + q1 a * q2 b - q2 a * q1 b + q3 a * q0 b).

End Np.

Import Np.

(** ** utils_comma2k19.orientation *)

Module orient.

Open Scope R_scope.

(** Modelled from the spec: [utils_comma2k19/orientation.py] is not among
    the sources; [rot_from_quat] is "the standard
    quaternion-to-rotation-matrix formula" of section 4.1, with "no
    normalization correction applied".  For a quaternion
    [(q0, q1, q2, q3)], scalar part first, the matrix maps a vector
    [v] to [q v q*]. *)
Definition rot_from_quat (q : quat) : mat3 :=
  let a := q0 q in
  let b := q1 q in
  let c := q2 q in
  let d := q3 q in
  mkmat (a * a + b * b - c * c - d * d) (2 * (b * c - a * d)) (2 * (a * c + b * d))
        (2 * (b * c + a * d)) (a * a - b * b + c * c - d * d) (2 * (c * d - a * b))
        (2 * (b * d - a * c)) (2 * (a * b + c * d)) (a * a - b * b - c * c + d * d).

End orient.

(** ** data.py: PlanningDataset *)

Module PlanningDataset.

Open Scope R_scope.

(** The attributes [__getitem__] reads.  [__init__] sets [enable_aug]
    and [view_transform] to [False]; they are ordinary attributes and a
    caller may change them, so the model keeps them as fields. *)
Record t : Type := mk {
  split : string;
  enable_aug : bool;
  view_transform : bool
}.

Definition init (split : string) : t :=
  {| split := split; enable_aug := false; view_transform := false |}.

(** A number as [json.load] returns it: a Python [int] or a Python
    [float]. *)
Inductive number : Type :=
| JInt (n : Z)
| JFloat (x : R).

(** One row [[x, y, z]] of [sample['future_poses']]. *)
Record row : Type := mkrow { rx : number; ry : number; rz : number }.

Definition is_int (a : number) : bool :=
  match a with JInt _ => true | JFloat _ => false end.

Definition int_of (a : number) : Z :=
  match a with JInt n => n | JFloat _ => 0%Z end.

Definition to_float (a : number) : R :=
  match a with JInt n => IZR n | JFloat x => x end.

Definition all_int (future_poses : list row) : bool :=
  forallb (fun r => is_int (rx r) && is_int (ry r) && is_int (rz r))
          future_poses.

(** A tensor of shape [(n, 3)] with its dtype. *)
Inductive tensor : Type :=
| Int64 (rows : list (Z * Z * Z))
| Float32 (rows : list vec3).

(** [torch.tensor(future_poses)] on a non-empty list of rows: the
    dtype is [int64] when every number is an [int], and [float32] as
    soon as one of them is a [float]. *)
Definition torch_tensor (future_poses : list row) : tensor :=
  if all_int future_poses then
    Int64 (map (fun r => (int_of (rx r), int_of (ry r), int_of (rz r)))
               future_poses)
  else
    Float32 (map (fun r => mkvec (to_float (rx r)) (to_float (ry r))
                                 (to_float (rz r)))
                 future_poses).

(** The scalar [1e-2] in a [float32] computation: the nearest
    [float32], [10737418 * 2^-30], just below one hundredth. *)
Definition f32_1e_2 : R := 10737418 / 1073741824.

(** [x.clamp(lo, )]: values below [lo] are raised to [lo]. *)
Definition clamp_min (x lo : R) : R := Rmax x lo.

(** [future_poses[:, 0] = future_poses[:, 0].clamp(1e-2, )].  In a
    [float32] tensor the column becomes [max(x, float32(1e-2))].  In an
    [int64] tensor the clamped values are converted back to integers
    when they are written into the column, which truncates the bound
    to 0: the column becomes [max(x, 0)]. *)
Definition clamp_forward (future_poses : tensor) : tensor :=
  match future_poses with
  | Int64 rows =>
      Int64 (map (fun r => (Z.max (fst (fst r)) 0, snd (fst r), snd r)) rows)
  | Float32 rows =>
      Float32 (map (fun p => mkvec (clamp_min (vx p) f32_1e_2) (vy p) (vz p))
                   rows)
  end.

(** [future_poses[:, 1] *= -1] *)
Definition flip_lateral (future_poses : tensor) : tensor :=
  match future_poses with
  | Int64 rows =>
      Int64 (map (fun r => (fst (fst r), (snd (fst r) * -1)%Z, snd r)) rows)
  | Float32 rows =>
      Float32 (map (fun p => mkvec (vx p) (vy p * -1) (vz p)) rows)
  end.


(** The [future_poses] entry of the dictionary [__getitem__] returns.
    [future_poses] is [sample['future_poses']], a list of rows of three
    numbers; [u] is the value [np.random.rand()] returns if the
    augmentation branch draws it.  An empty list gives a tensor of one
    dimension, and indexing its first column at l.72 raises
    [IndexError].  Floating-point entries are idealised as reals.  The
    images go through a separate pipeline (decode, warp, flip,
    perspective transform, normalise) that never writes to
    [future_poses]; it is left out. *)
Definition getitem (self : t) (future_poses : list row) (u : R)
  : result tensor :=
  match future_poses with
  | [] => Raise IndexError
  | _ :: _ =>
      let future_poses := clamp_forward (torch_tensor future_poses) in
      if enable_aug self && String.eqb (split self) "train" then
        if Rlt_dec (1 / 2) u then Ok (flip_lateral future_poses)
        else Ok future_poses
      else Ok future_poses
  end.

End PlanningDataset.

(** ** data.py: Comma2k19SequenceDataset *)

Module Comma2k19SequenceDataset.

Open Scope Z_scope.

Record t : Type := mk {
  num_pts : Z;
  fix_seq_length : Z
}.

(** [__init__]: [num_pts] is an argument (default 10),
    [fix_seq_length] is the constant 40. *)
Definition init (num_pts : Z) : t :=
  {| num_pts := num_pts; fix_seq_length := 40 |}.

(** The window sampler, [__getitem__] l.208-218: the length guard, the
    random offset and the two indices it yields,
    [(seq_start_idx, seq_end_idx)]. *)
Definition sample_window (draw seq_length fix_seq_length num_pts : Z)
  : result (Z * Z) :=
  if seq_length <? fix_seq_length + num_pts then
    Raise (SequenceTooShort seq_length (fix_seq_length + num_pts))
  else
    let seq_length_delta := seq_length - (fix_seq_length + num_pts) in
    seq_length_delta <- randint draw 1 (seq_length_delta + 1) ;;
    let seq_start_idx := seq_length_delta in
    let seq_end_idx := seq_length_delta + fix_seq_length in
    Ok (seq_start_idx, seq_end_idx).

(** One iteration of the loop of l.234-239: the label of anchor [i]. *)
Definition local_trajectory (frame_positions : list vec3)
  (frame_orientations : list quat) (i : nat) : result (list vec3) :=
  q <- index frame_orientations i ;;
  let ecef_from_local := orient.rot_from_quat q in
  let local_from_ecef := transpose ecef_from_local in
  p_i <- index frame_positions i ;;
  let frame_positions_local :=
    einsum_ij_kj_ki local_from_ecef (sub_row frame_positions p_i) in
  Ok (slice frame_positions_local i (i + 10)).

(** [torch.tensor(future_poses)] on a list of [(n_i, 3)] arrays: the
    [n_i] must agree. *)
Definition torch_tensor (rows : list (list vec3)) : result (list (list vec3)) :=
  match rows with
  | [] => Ok rows
  | r :: rest =>
      if forallb (fun r' => Nat.eqb (List.length r') (List.length r)) rest then Ok rows
      else Raise ValueError_ragged
  end.

(** The pose localiser, l.233-240: one label per anchor
    [i] in [range(fix_seq_length)]. *)
Definition localize (fix_seq_length : Z) (frame_positions : list vec3)
  (frame_orientations : list quat) : result (list (list vec3)) :=
  future_poses <-
    mapM (local_trajectory frame_positions frame_orientations)
         (range fix_seq_length) ;;
  torch_tensor future_poses.

(** The [seq_future_poses] entry of the dictionary [__getitem__]
    returns.  [opened] is [cap.isOpened()] before the first read,
    [n_frames] is the number of frames the video yields ([len(imgs)]),
    [positions] and [orientations] are the two arrays loaded from
    [global_pose/]; [draw] drives [np.random.randint].  The image
    tensor ([seq_input_img]) is built from the frames alone and is
    modelled apart, in [Comma2k19Frames]. *)
Definition getitem (self : t) (draw : Z) (opened : bool) (n_frames : Z)
  (positions : list vec3) (orientations : list quat)
  : result (list (list vec3)) :=
  if negb opened then Raise VideoNotOpened
  else
    let seq_length := n_frames in
    w <- sample_window draw seq_length (fix_seq_length self) (num_pts self) ;;
    let seq_start_idx := fst w in
    let seq_end_idx := snd w in
    let frame_positions :=
      slice_z positions seq_start_idx (seq_end_idx + num_pts self) in
    let frame_orientations :=
      slice_z orientations seq_start_idx (seq_end_idx + num_pts self) in
    localize (fix_seq_length self) frame_positions frame_orientations.

End Comma2k19SequenceDataset.

(** ** main.py: the training driver *)

Module Train.

Open Scope Z_scope.

(** A floating-point scalar as the loop sees it: a real, or one of the
    non-finite floats NaN, +Inf, -Inf. *)
Inductive fval : Type :=
| Finite (x : R)
| NonFinite.

(** Float addition: a non-finite operand gives a non-finite sum. *)
Definition fadd (a b : fval) : fval :=
  match a, b with
  | Finite x, Finite y => Finite (x + y)
  | _, _ => NonFinite
  end.

(** [a / n] for a tensor [a] and a Python integer [n]; tensor division
    by zero does not raise, it yields Inf or NaN. *)
Definition fdiv_int (a : fval) (n : Z) : fval :=
  match a with
  | Finite x => if n =? 0 then NonFinite else Finite (x / IZR n)
  | NonFinite => NonFinite
  end.

(** The variable [total_loss]: the Python integer it is initialised and
    reset to, or the tensor it becomes once a loss is added. *)
Inductive py_total : Type :=
| PyInt (n : Z)
| Tensor (l : fval).

(** [isinstance(total_loss, int)] *)
Definition isinstance_int (v : py_total) : bool :=
  match v with PyInt _ => true | Tensor _ => false end.

(** [total_loss + x] for a tensor [x]. *)
Definition total_add (v : py_total) (x : fval) : py_total :=
  match v with
  | PyInt n => Tensor (fadd (Finite (IZR n)) x)
  | Tensor l => Tensor (fadd l x)
  end.

(** [a % b] on Python integers. *)
Definition py_mod (a b : Z) : result Z :=
  if b =? 0 then Raise ZeroDivisionError else Ok (a mod b).

(** The calls the driver makes to its collaborators (process group,
    data loaders, network, loss, optimiser, scheduler, summary writer),
    in the order it makes them. *)
Inductive event : Type :=
| Setup
| NewSummaryWriter
| SetEpoch (epoch : nat)
| ZerosHidden
| ModelForward (t : nat)
| LossEval (t : nat)
| AddScalar (tag : string) (num_steps : Z)
| Detach
| ZeroGrad
| Backward (total_loss : fval)
| OptimizerStep
| LrSchedulerStep
| PyPrint (msg : string)
| DataCuda
| ValidationStep
| Cleanup.

(** The mutable variables of [main] and the calls made so far. *)
Record state : Type := mkstate {
  num_steps : Z;
  total_loss : py_total;
  trace : list event
}.

Definition init_state : state :=
  {| num_steps := 0; total_loss := PyInt 0; trace := [] |}.

(** How a block of statements ends: it falls through, it executes
    [continue], or it raises. *)
Inductive signal : Type :=
| Normal
| Continue
| Raised (e : exn).

Definition stmt : Type := state -> signal * state.

Definition skip : stmt := fun s => (Normal, s).

Definition continue : stmt := fun s => (Continue, s).

Definition raise (e : exn) : stmt := fun s => (Raised e, s).

(** A statement that depends on the current values of the variables. *)
Definition reading (f : state -> stmt) : stmt := fun s => f s s.

(** [a] then [b]: [b] runs only if [a] falls through. *)
Definition then_ (a b : stmt) : stmt :=
  fun s =>
    match a s with
    | (Normal, s') => b s'
    | (Continue, s') => (Continue, s')
    | (Raised e, s') => (Raised e, s')
    end.

Declare Scope stmt_scope.
Delimit Scope stmt_scope with stmt.
Bind Scope stmt_scope with stmt.
Notation "a >> b" := (then_ a b)
  (at level 62, right associativity) : stmt_scope.
Open Scope stmt_scope.

(** [for x in xs: body]: [continue] in the body moves to the next
    element, an exception leaves the loop. *)
Fixpoint for_each {A : Type} (xs : list A) (body : A -> stmt) : stmt :=
  fun s =>
    match xs with
    | [] => (Normal, s)
    | x :: rest =>
        match body x s with
        | (Normal, s') => for_each rest body s'
        | (Continue, s') => for_each rest body s'
        | (Raised e, s') => (Raised e, s')
        end
    end.

Definition emit (e : event) : stmt :=
  fun s =>
    (Normal, {| num_steps := num_steps s;
                total_loss := total_loss s;
                trace := trace s ++ [e] |}).

Definition set_total_loss (v : py_total) : stmt :=
  fun s =>
    (Normal, {| num_steps := num_steps s;
                total_loss := v;
                trace := trace s |}).

Definition set_num_steps (n : Z) : stmt :=
  fun s =>
    (Normal, {| num_steps := n;
                total_loss := total_loss s;
                trace := trace s |}).

(** [for t in range(n)] over a sequence indexed by [t]: the elements
    paired with their index. *)
Fixpoint enumerate_from {A : Type} (t : nat) (xs : list A) : list (nat * A) :=
  match xs with
  | [] => []
  | x :: rest => (t, x) :: enumerate_from (S t) rest
  end.

(** [total_loss.backward()]: an [int] has no such method. *)
Definition backward : stmt :=
  reading (fun s =>
    match total_loss s with
    | Tensor l => emit (Backward l)
    | PyInt _ => raise AttributeError
    end).

(** l.172-177, the body of [if (t + 1) % optimize_per_n_step == 0]. *)
Definition truncation_boundary : stmt :=
  emit Detach >>
  emit ZeroGrad >>
  backward >>
  emit OptimizerStep >>
  emit LrSchedulerStep >>
  set_total_loss (PyInt 0).

(** l.180-183, the body of [if not isinstance(total_loss, int)]. *)
Definition final_flush : stmt :=
  emit ZeroGrad >>
  backward >>
  emit OptimizerStep >>
  emit LrSchedulerStep.

(** l.164-169 *)
Definition log_scalars : stmt :=
  reading (fun s =>
    emit (AddScalar "loss/cls" (num_steps s)) >>
    emit (AddScalar "loss/reg" (num_steps s)) >>
    emit (AddScalar "loss/reg_x" (num_steps s)) >>
    emit (AddScalar "loss/reg_y" (num_steps s)) >>
    emit (AddScalar "loss/reg_z" (num_steps s))).

(** One iteration of [for t in range(seq_length)], l.157-177.
    [step_loss] is the value of [cls_loss + args.mtp_alpha *
    reg_loss.mean()] that the network and the loss produce at step [t];
    predictions and the hidden state only travel between the
    collaborators and never reach a test of the driver. *)
Definition train_step (rank optimize_per_n_step : Z) (ts : nat * fval) : stmt :=
  let t := fst ts in
  let step_loss := snd ts in
  reading (fun s => set_num_steps (num_steps s + 1)) >>
  emit (ModelForward t) >>
  emit (LossEval t) >>
  reading (fun s =>
    set_total_loss
      (total_add (total_loss s) (fdiv_int step_loss optimize_per_n_step))) >>
  (if rank =? 0 then log_scalars else skip) >>
  match py_mod (Z.of_nat t + 1) optimize_per_n_step with
  | Raise e => raise e
  | Ok r => if r =? 0 then truncation_boundary else skip
  end.

(** A batch as the driver sees it: the step losses of its window, one
    per time step, so that [seq_length] is the length of the list. *)
Definition window : Type := list fval.

(** The body of [for batch_idx, data in enumerate(train_dataloader)],
    l.150-183. *)
Definition train_window (rank optimize_per_n_step : Z) (data : window) : stmt :=
  emit ZerosHidden >>
  set_total_loss (PyInt 0) >>
  for_each (enumerate_from 0 data) (train_step rank optimize_per_n_step) >>
  reading (fun s =>
    if negb (isinstance_int (total_loss s)) then final_flush else skip).

(** [SequenceBaselineV1]: the one attribute the driver reads. *)
Record SequenceBaselineV1 : Type := mkmodel {
  optimize_per_n_step : Z
}.

Definition SequenceBaselineV1_init : SequenceBaselineV1 :=
  {| optimize_per_n_step := 40 |}.

(** The body of [for epoch in range(args.epochs)], l.147-190. *)
Definition epoch_body (rank : Z) (model : SequenceBaselineV1)
  (train_dataloader : nat -> list window) (val_dataloader : list unit)
  (epoch : nat) : stmt :=
  emit (SetEpoch epoch) >>
  for_each (train_dataloader epoch)
           (train_window rank (optimize_per_n_step model)) >>
  (if (Z.of_nat epoch + 1) mod 10 =? 0 then
     emit (PyPrint "skipping val...") >>
     continue >>
     for_each val_dataloader
              (fun data => emit DataCuda >> emit ValidationStep)
   else skip).

(** [main], l.125-192, on the batches the loaders yield.
    [train_dataloader epoch] is the sequence of batches the training
    loader yields in that epoch, each one already fetched.  Building
    the loaders, the network and the optimiser (l.131-142) and fetching
    a batch can raise; a run in which they do ends there and is not
    described by this function. *)
Definition main (rank : Z) (model : SequenceBaselineV1) (epochs : Z)
  (train_dataloader : nat -> list window) (val_dataloader : list unit) : stmt :=
  emit Setup >>
  (if rank =? 0 then emit NewSummaryWriter else skip) >>
  set_num_steps 0 >>
  for_each (range epochs)
           (epoch_body rank model train_dataloader val_dataloader) >>
  emit Cleanup.

(** Observations on a trace. *)
Definition is_optimizer_step (e : event) : bool :=
  match e with OptimizerStep => true | _ => false end.

Definition is_validation_step (e : event) : bool :=
  match e with ValidationStep => true | _ => false end.

Definition optimizer_steps (tr : list event) : Z :=
  Z.of_nat (List.length (filter is_optimizer_step tr)).

Definition validation_steps (tr : list event) : Z :=
  Z.of_nat (List.length (filter is_validation_step tr)).

(** A statement that makes no call to [validation_step], whatever the
    state it starts from and however it ends. *)
Definition quiet (c : stmt) : Prop :=
  forall s, validation_steps (trace (snd (c s))) = validation_steps (trace s).

(** [ceil(a / b)] for a positive [b]. *)
Definition ceil_div (a b : Z) : Z := (a + b - 1) / b.

(** The calls of one time step before the test of l.171, when
    [num_steps] has become [n]. *)
Definition step_events (rank n : Z) (t : nat) : list event :=
  [ModelForward t; LossEval t] ++
  (if rank =? 0 then
     [AddScalar "loss/cls" n; AddScalar "loss/reg" n;
      AddScalar "loss/reg_x" n; AddScalar "loss/reg_y" n;
      AddScalar "loss/reg_z" n]
   else []).

(** The calls that apply an accumulated loss to the weights. *)
Definition update_events (total : fval) : list event :=
  [ZeroGrad; Backward total; OptimizerStep; LrSchedulerStep].

(** The value of [total_loss + x]. *)
Definition total_add_val (v : py_total) (x : fval) : fval :=
  match v with
  | PyInt n => fadd (Finite (IZR n)) x
  | Tensor l => fadd l x
  end.

End Train.

(** ** Rigid motions of the global frame *)

Module Frame.

(** The rotation of the unit quaternion [g] followed by the
    translation [t], applied to a global position. *)
Definition move_position (g : quat) (t : vec3) (p : vec3) : vec3 :=
  vadd (mat_vec (orient.rot_from_quat g) p) t.

(** The same rotation applied to an orientation: the vehicle axes are
    first carried to the old global frame by [q], then rotated by [g]. *)
Definition move_orientation (g : quat) (q : quat) : quat := qmul g q.

End Frame.

(** ** Concrete inputs used in the examples *)

Module Examples.

Open Scope R_scope.

(** The unit quaternion of the rotation by a third of a turn about the
    axis [(1, 1, 1)]; its matrix sends the x axis to the y axis. *)
Definition q_third_turn : quat := mkquat (1 / 2) (1 / 2) (1 / 2) (1 / 2).

Definition q_identity : quat := mkquat 1 0 0 0.

(** Two poses one metre apart along the global x axis. *)
Definition two_positions : list vec3 := [mkvec 0 0 0; mkvec 1 0 0].

Definition two_orientations : list quat := [q_third_turn; q_third_turn].

(** The poses of the spec's scenario: three points on the x axis,
    identity orientation. *)
Definition three_positions : list vec3 :=
  [mkvec 0 0 0; mkvec 1 0 0; mkvec 2 0 0].

Definition three_orientations : list quat :=
  [q_identity; q_identity; q_identity].

(** A drive of 61 frames along the global x axis, one metre per frame,
    with the vehicle axes aligned to the global ones. *)
Definition straight_positions : list vec3 :=
  map (fun n => mkvec (INR n) 0 0) (seq 0 61).

Definition straight_orientations : list quat := repeat q_identity 61.

(** Labels as stored in a sample of the planning dataset: one point
    behind the vehicle, one ahead; with floating-point numbers, and
    with integers only. *)
Definition stored_future_poses : list PlanningDataset.row :=
  [PlanningDataset.mkrow (PlanningDataset.JFloat (-1))
                         (PlanningDataset.JFloat (1 / 2))
                         (PlanningDataset.JFloat 0);
   PlanningDataset.mkrow (PlanningDataset.JFloat 3)
                         (PlanningDataset.JFloat (-1))
                         (PlanningDataset.JFloat 0)].

Definition integer_future_poses : list PlanningDataset.row :=
  [PlanningDataset.mkrow (PlanningDataset.JInt (-1)) (PlanningDataset.JInt 0)
                         (PlanningDataset.JInt 0);
   PlanningDataset.mkrow (PlanningDataset.JInt 3) (PlanningDataset.JInt 0)
                         (PlanningDataset.JInt 0)].

End Examples.

(** ** data.py: the frames of Comma2k19SequenceDataset *)

Module Comma2k19Frames.

(** [torch.cat((input_img[:-1, ...], input_img[1:, ...]), dim=1)],
    l.226: entry [t] stacks the channels of frames [t] and [t + 1]. *)
Definition frame_pairs {Ten : Type} (input_img : list Ten) : list (Ten * Ten) :=
  combine (removelast input_img) (tl input_img).

(** The [seq_input_img] entry, l.221-226, for the window
    [(seq_start_idx, seq_end_idx)].  [transforms] stands for the
    per-frame chain [cvtColor], [Image.fromarray], [self.transforms];
    [torch.cat] refuses an empty list of frames ([None]). *)
Definition seq_input_img {Img Ten : Type} (transforms : Img -> Ten)
  (imgs : list Img) (seq_start_idx seq_end_idx : Z)
  : option (list (Ten * Ten)) :=
  let imgs := slice_z imgs (seq_start_idx - 1) seq_end_idx in
  let imgs := map transforms imgs in
  match imgs with
  | [] => None
  | _ :: _ => Some (frame_pairs imgs)
  end.

End Comma2k19Frames.

(** ** data.py: SequencePlanningDataset *)

Module SequencePlanningDataset.

Open Scope Z_scope.

(** One entry of a stored sequence: the paths of its images and its
    label.  The camera entries are read from the first sample of the
    window only and do not enter the selection. *)
Record sample : Type := mksample {
  imgs : list string;
  future_poses : list vec3
}.

Record t : Type := mk {
  samples : list (list sample);
  fix_seq_length : Z
}.

(** [__init__]: [fix_seq_length] is the constant 18. *)
Definition init (samples : list (list sample)) : t :=
  {| samples := samples; fix_seq_length := 18 |}.

(** How a call ends: it returns, it raises one of the exceptions of
    [Py.exn], [torch.cat] is given an empty list, or the retries
    exhaust the recursion depth of the interpreter. *)
Inductive outcome (A : Type) : Type :=
| Returned (a : A)
| Raises (e : exn)
| TorchCatEmpty
| RecursionLimit.
Arguments Returned {A} a.
Arguments Raises {A} e.
Arguments TorchCatEmpty {A}.
Arguments RecursionLimit {A}.

(** l.133-153 on the selected window: every sample must have an image
    for its [torch.cat], the window must have a sample for the outer
    [torch.cat], and the labels must stack into one tensor.  The value
    is the [seq_future_poses] entry. *)
Definition build (seq_samples : list sample) : outcome (list (list vec3)) :=
  let seq_future_poses := map future_poses seq_samples in
  let seq_imgs := map imgs seq_samples in
  if existsb (fun imgs => match imgs with [] => true | _ :: _ => false end)
             seq_imgs
  then TorchCatEmpty
  else
    match seq_imgs with
    | [] => TorchCatEmpty
    | _ :: _ =>
        match Comma2k19SequenceDataset.torch_tensor seq_future_poses with
        | Ok x => Returned x
        | Raise e => Raises e
        end
    end.

(** The window [__getitem__] selects, l.123-131, and what it ran
    [build] on.  [draws k] is the raw output of the [k]-th call to
    [np.random.randint]; [depth] is the number of nested calls the
    interpreter still allows. *)
Fixpoint select (depth : nat) (self : t) (draws : nat -> Z) (k : nat)
  (idx : nat) : outcome (list sample) :=
  match depth with
  | O => RecursionLimit
  | S depth' =>
      match index (samples self) idx with
      | Raise e => Raises e
      | Ok seq_samples =>
          let seq_length := Z.of_nat (List.length seq_samples) in
          if seq_length <? fix_seq_length self then
            match randint (draws k) 0 (Z.of_nat (List.length (samples self))) with
            | Raise e => Raises e
            | Ok idx' => select depth' self draws (S k) (Z.to_nat idx')
            end
          else if fix_seq_length self <? seq_length then
            let seq_length_delta := seq_length - fix_seq_length self in
            match randint (draws k) 0 (seq_length_delta + 1) with
            | Raise e => Raises e
            | Ok seq_length_delta =>
                Returned (slice_z seq_samples seq_length_delta
                                  (fix_seq_length self + seq_length_delta))
            end
          else Returned seq_samples
      end
  end.

(** [__getitem__], l.122-153: the [seq_future_poses] entry of the
    dictionary it returns.  Reading the images from disk is left out. *)
Definition getitem (depth : nat) (self : t) (draws : nat -> Z) (idx : nat)
  : outcome (list (list vec3)) :=
  match select depth self draws 0 idx with
  | Returned seq_samples => build seq_samples
  | Raises e => Raises e
  | TorchCatEmpty => TorchCatEmpty
  | RecursionLimit => RecursionLimit
  end.

End SequencePlanningDataset.

(** ** A census of the calls of the training driver *)

Module Census.

Import Train.
Open Scope Z_scope.

(** The collaborator call an event records, without its arguments. *)
Inductive kind : Type :=
| KSetup | KNewSummaryWriter | KSetEpoch | KZerosHidden | KModelForward
| KLossEval | KAddScalar | KDetach | KZeroGrad | KBackward
| KOptimizerStep | KLrSchedulerStep | KPyPrint | KDataCuda
| KValidationStep | KCleanup.

Definition kind_of (e : event) : kind :=
  match e with
  | Setup => KSetup
  | NewSummaryWriter => KNewSummaryWriter
  | SetEpoch _ => KSetEpoch
  | ZerosHidden => KZerosHidden
  | ModelForward _ => KModelForward
  | LossEval _ => KLossEval
  | AddScalar _ _ => KAddScalar
  | Detach => KDetach
  | ZeroGrad => KZeroGrad
  | Backward _ => KBackward
  | OptimizerStep => KOptimizerStep
  | LrSchedulerStep => KLrSchedulerStep
  | PyPrint _ => KPyPrint
  | DataCuda => KDataCuda
  | ValidationStep => KValidationStep
  | Cleanup => KCleanup
  end.

Definition kind_index (k : kind) : nat :=
  match k with
  | KSetup => 0 | KNewSummaryWriter => 1 | KSetEpoch => 2
  | KZerosHidden => 3 | KModelForward => 4 | KLossEval => 5
  | KAddScalar => 6 | KDetach => 7 | KZeroGrad => 8 | KBackward => 9
  | KOptimizerStep => 10 | KLrSchedulerStep => 11 | KPyPrint => 12
  | KDataCuda => 13 | KValidationStep => 14 | KCleanup => 15
  end.

Definition kind_eqb (a b : kind) : bool :=
  Nat.eqb (kind_index a) (kind_index b).

(** The number of calls of kind [k] in a trace. *)
Definition count (k : kind) (tr : list event) : Z :=
  Z.of_nat (List.length (filter (fun e => kind_eqb (kind_of e) k) tr)).

Definition sum_Z (l : list Z) : Z := fold_right Z.add 0 l.

(** The total passed to [backward] calls, in order. *)
Definition backward_totals (tr : list event) : list fval :=
  flat_map (fun e => match e with Backward l => [l] | _ => [] end) tr.

(** Calls of kind [k] in one time step, at a truncation boundary and
    in the final update. *)
Definition step_kind (rank : Z) (k : kind) : Z :=
  count k (step_events rank 0 0%nat).

Definition boundary_kind (k : kind) : Z :=
  count k (Detach :: update_events NonFinite).

Definition update_kind (k : kind) : Z :=
  count k (update_events NonFinite).

(** Calls of kind [k] in a window of [n] steps. *)
Definition window_census (rank T : Z) (k : kind) (n : Z) : Z :=
  count k [ZerosHidden] + n * step_kind rank k + (n / T) * boundary_kind k
  + (if n mod T =? 0 then 0 else update_kind k).

Definition window_length (w : window) : Z := Z.of_nat (List.length w).

(** Calls of kind [k] in one epoch and in a run of [main]. *)
Definition epoch_census (rank T : Z) (train_dataloader : nat -> list window)
  (k : kind) (epoch : nat) : Z :=
  count k [SetEpoch epoch]
  + sum_Z (map (fun w => window_census rank T k (window_length w))
               (train_dataloader epoch))
  + (if (Z.of_nat epoch + 1) mod 10 =? 0
     then count k [PyPrint "skipping val..."] else 0).

Definition main_census (rank T epochs : Z)
  (train_dataloader : nat -> list window) (k : kind) : Z :=
  count k [Setup]
  + (if rank =? 0 then count k [NewSummaryWriter] else 0)
  + sum_Z (map (epoch_census rank T train_dataloader k) (range epochs))
  + count k [Cleanup].

(** The time steps of a run: one per entry of every window. *)
Definition total_steps (epochs : Z) (train_dataloader : nat -> list window) : Z :=
  sum_Z (map (fun epoch => sum_Z (map window_length (train_dataloader epoch)))
             (range epochs)).

(** What a statement adds to the state when it ends with [sig]: [dn]
    to the step counter and [cen k] calls of each kind [k]. *)
Definition effect (c : stmt) (sig : signal) (dn : Z) (cen : kind -> Z) : Prop :=
  forall s, exists s' evs,
    c s = (sig, s') /\
    trace s' = trace s ++ evs /\
    num_steps s' = num_steps s + dn /\
    forall k, count k evs = cen k.

(** The four calls of a weight update. *)
Definition is_update_kind (k : kind) : bool :=
  match k with
  | KZeroGrad | KBackward | KOptimizerStep | KLrSchedulerStep => true
  | _ => false
  end.

(** The signal an epoch ends with. *)
Definition epoch_signal (epoch : nat) : signal :=
  if (Z.of_nat epoch + 1) mod 10 =? 0 then Continue else Normal.

End Census.

(** ** Lengths *)

Module Geometry.

Open Scope R_scope.

(** The squared length of a vector. *)
Definition vnorm2 (v : vec3) : R := vx v * vx v + vy v * vy v + vz v * vz v.

End Geometry.

(** ** The accumulated loss of a segment *)

Module Accumulator.

Import Train.
Open Scope R_scope.

(** The value [total_loss] holds, when it is finite. *)
Definition value_of (v : py_total) : R :=
  match v with
  | PyInt n => IZR n
  | Tensor (Finite a) => a
  | Tensor NonFinite => 0
  end.

Definition finite_total (v : py_total) : Prop :=
  match v with
  | PyInt _ => True
  | Tensor (Finite _) => True
  | Tensor NonFinite => False
  end.

(** The sum the driver builds from the losses [xs] of a segment,
    starting from [a]: each loss is divided by [T] before it is added. *)
Definition accumulate (T : Z) (a : R) (xs : list R) : R :=
  fold_left (fun acc x => acc + x / IZR T) xs a.

End Accumulator.

(** ** Stored sequences used in the examples *)

Module SequenceExamples.

Import SequencePlanningDataset.
Open Scope R_scope.

(** A stored sequence of 20 samples whose labels point backwards. *)
Definition long_sequence : list sample :=
  map (fun n => mksample ["frame.jpg"%string] [mkvec (-1) 0 (INR n)])
      (seq 0 20).

(** A stored sequence of 5 samples. *)
Definition short_sequence : list sample := firstn 5 long_sequence.

End SequenceExamples.

(** ** Loaders used in the examples *)

Module TrainExamples.

Import Train.

(** Every epoch yields a window of 40 steps and a window of 7 steps. *)
Definition two_windows (epoch : nat) : list window :=
  [repeat (Finite 1) 40; repeat (Finite 1) 7].

End TrainExamples.

(** * Properties *)

(** ** Results and lists *)

Section ResultFacts.

Context {A B : Type}.

Lemma mapM_nth_error (f : A -> result B) :
  forall (xs : list A) (ys : list B) (i : nat) (y : B),
    mapM f xs = Ok ys ->
    nth_error ys i = Some y ->
    exists x, nth_error xs i = Some x /\ f x = Ok y.
Proof.
  induction xs as [|x rest IH]; intros ys i y Hm Hy; simpl in Hm.
  - injection Hm as <-. destruct i; discriminate.
  - destruct (f x) as [y0|e] eqn:Hfx; simpl in Hm; [|discriminate].
    destruct (mapM f rest) as [ys0|e] eqn:Hrest; simpl in Hm; [|discriminate].
    injection Hm as <-.
    destruct i as [|i]; simpl in Hy.
    + injection Hy as <-. exists x. auto.
    + destruct (IH ys0 i y eq_refl Hy) as (x' & Hx' & Hf).
      exists x'. auto.
Qed.

Lemma mapM_ext_in (f g : A -> result B) :
  forall xs : list A,
    (forall x, In x xs -> f x = g x) -> mapM f xs = mapM g xs.
Proof.
  induction xs as [|x rest IH]; intros Hfg; simpl; [reflexivity|].
  rewrite (Hfg x (or_introl eq_refl)).
  rewrite IH; [reflexivity|].
  intros x' Hx'. apply Hfg. right. exact Hx'.
Qed.

Lemma mapM_all_ok (f : A -> result B) :
  forall xs : list A,
    (forall x, In x xs -> exists y, f x = Ok y) ->
    exists ys, mapM f xs = Ok ys.
Proof.
  induction xs as [|x rest IH]; intros Hok; simpl.
  - exists []. reflexivity.
  - destruct (Hok x (or_introl eq_refl)) as (y & ->).
    destruct IH as (ys & ->).
    + intros x' Hx'. apply Hok. right. exact Hx'.
    + exists (y :: ys). reflexivity.
Qed.

End ResultFacts.

Lemma index_ok {A : Type} (a : list A) (i : nat) (x : A) :
  index a i = Ok x <-> nth_error a i = Some x.
Proof.
  unfold index. destruct (nth_error a i); split; intros H;
    try discriminate; injection H as <-; reflexivity.
Qed.

Lemma nth_error_slice {A : Type} (a : list A) (i j k : nat) :
  nth_error (slice a i j) k =
  if (k <? j - i)%nat then nth_error a (i + k) else None.
Proof.
  unfold slice. rewrite nth_error_firstn, nth_error_skipn. reflexivity.
Qed.

Lemma length_slice {A : Type} (a : list A) (i j : nat) :
  List.length (slice a i j) = Nat.min (j - i) (List.length a - i).
Proof.
  unfold slice. rewrite length_firstn, length_skipn. reflexivity.
Qed.

Lemma nth_error_range (n : Z) (i x : nat) :
  nth_error (range n) i = Some x -> x = i /\ (Z.of_nat i < n)%Z.
Proof.
  unfold range. rewrite nth_error_seq.
  destruct (Nat.ltb_spec i (Z.to_nat n)); [|discriminate].
  intros H0. injection H0 as <-. split; lia.
Qed.

(** ** The window sampler *)

Section Sampler.

Import Comma2k19SequenceDataset.
Open Scope Z_scope.

Lemma randint_range (draw low high r : Z) :
  randint draw low high = Ok r -> low <= r < high.
Proof.
  unfold randint. destruct (Z.ltb_spec low high); [|discriminate].
  intros H0. injection H0 as <-.
  pose proof (Z.mod_pos_bound draw (high - low)). lia.
Qed.

Lemma randint_ok (draw low high : Z) :
  low < high -> exists r, randint draw low high = Ok r.
Proof.
  intros H. unfold randint.
  destruct (Z.ltb_spec low high); [eauto | lia].
Qed.

(** Every value of the range is produced by some draw. *)
Lemma randint_onto (low high r : Z) :
  low <= r < high -> randint (r - low) low high = Ok r.
Proof.
  intros H. unfold randint.
  destruct (Z.ltb_spec low high); [|lia].
  rewrite Z.mod_small by lia. f_equal. lia.
Qed.

(** X1.  The guard of l.210 fires exactly below [fix_seq_length + num_pts]. *)
Lemma sample_window_too_short_iff (draw seq_length fix_seq_length num_pts : Z) :
  sample_window draw seq_length fix_seq_length num_pts
    = Raise (SequenceTooShort seq_length (fix_seq_length + num_pts))
  <-> seq_length < fix_seq_length + num_pts.
Proof.
  unfold sample_window.
  destruct (Z.ltb_spec seq_length (fix_seq_length + num_pts)) as [Hlt|Hge].
  - tauto.
  - split; [|lia]. unfold randint.
    destruct (_ <? _); simpl; discriminate.
Qed.

(** X2.  Strictly above the threshold the sampler returns a window. *)
Lemma sample_window_succeeds (draw seq_length fix_seq_length num_pts : Z) :
  fix_seq_length + num_pts < seq_length ->
  exists w, sample_window draw seq_length fix_seq_length num_pts = Ok w.
Proof.
  intros H. unfold sample_window.
  destruct (Z.ltb_spec seq_length (fix_seq_length + num_pts)); [lia|].
  destruct (randint_ok draw 1 (seq_length - (fix_seq_length + num_pts) + 1))
    as (r & ->); [lia|].
  simpl. eauto.
Qed.

(** The scenario of the spec: 39 frames, [fix_seq_length = 40],
    [num_pts = 10]. *)
Lemma sample_window_39 (draw : Z) :
  sample_window draw 39 40 10 = Raise (SequenceTooShort 39 50).
Proof. reflexivity. Qed.

(** C2 (the code at the failing input).  When the sequence has exactly
    [fix_seq_length + num_pts] frames the guard of l.210 lets it through,
    [seq_length_delta] is 0 and [np.random.randint(1, 1)] raises
    [ValueError]: the sampler neither reports a too-short sequence nor
    returns a window, whatever the draw. *)
Theorem sample_window_exact_length_raises (draw fix_seq_length num_pts : Z) :
  sample_window draw (fix_seq_length + num_pts) fix_seq_length num_pts
    = Raise ValueError_low_ge_high.
Proof.
  unfold sample_window.
  destruct (Z.ltb_spec (fix_seq_length + num_pts) (fix_seq_length + num_pts));
    [lia|].
  replace (fix_seq_length + num_pts - (fix_seq_length + num_pts) + 1) with 1
    by lia.
  reflexivity.
Qed.

(** C3.  Whenever the sampler returns [(seq_start_idx, seq_end_idx)],
    the window has [fix_seq_length] steps, leaves [num_pts] frames
    after its end, and starts in
    [1 .. seq_length - fix_seq_length - num_pts]; for every length,
    every pair of parameters and every draw. *)
Theorem sample_window_contract
  (draw seq_length fix_seq_length num_pts seq_start_idx seq_end_idx : Z) :
  sample_window draw seq_length fix_seq_length num_pts
    = Ok (seq_start_idx, seq_end_idx) ->
  seq_end_idx - seq_start_idx = fix_seq_length /\
  seq_end_idx + num_pts <= seq_length /\
  1 <= seq_start_idx <= seq_length - fix_seq_length - num_pts.
Proof.
  unfold sample_window.
  destruct (Z.ltb_spec seq_length (fix_seq_length + num_pts)); [discriminate|].
  destruct (randint draw 1 (seq_length - (fix_seq_length + num_pts) + 1))
    as [r|e] eqn:Hr; simpl; [|discriminate].
  intros H0. injection H0 as <- <-.
  apply randint_range in Hr. lia.
Qed.

Lemma sample_window_contract_witness :
  sample_window 7 100 40 10 = Ok (8, 48) /\
  (48 - 8 = 40 /\ 48 + 10 <= 100 /\ 1 <= 8 <= 100 - 40 - 10).
Proof.
  split; [reflexivity|].
  apply (sample_window_contract 7 100 40 10 8 48). reflexivity.
Defined.

(** X3.  Every start of that range is the outcome of some draw. *)
Lemma sample_window_onto (seq_length fix_seq_length num_pts start : Z) :
  1 <= start <= seq_length - fix_seq_length - num_pts ->
  sample_window (start - 1) seq_length fix_seq_length num_pts
    = Ok (start, start + fix_seq_length).
Proof.
  intros H. unfold sample_window.
  destruct (Z.ltb_spec seq_length (fix_seq_length + num_pts)); [lia|].
  rewrite randint_onto by lia. reflexivity.
Qed.

End Sampler.

(** ** Quaternions and rotation matrices *)

Section Rotations.

Open Scope R_scope.

Lemma einsum_is_mat_vec (m : mat3) (d : list vec3) :
  einsum_ij_kj_ki m d = map (mat_vec m) d.
Proof. reflexivity. Qed.

Lemma mat_vec_zero (m : mat3) : mat_vec m vzero = vzero.
Proof. unfold mat_vec, vzero; simpl. f_equal; ring. Qed.

Lemma vsub_diag (p : vec3) : vsub p p = vzero.
Proof. unfold vsub, vzero. f_equal; ring. Qed.

Lemma mat_vec_mul (a b : mat3) (v : vec3) :
  mat_vec (mat_mul a b) v = mat_vec a (mat_vec b v).
Proof. unfold mat_vec, mat_mul; simpl. f_equal; ring. Qed.

Lemma mat_vec_identity (v : vec3) : mat_vec identity v = v.
Proof. destruct v. unfold mat_vec, identity; simpl. f_equal; ring. Qed.

Lemma transpose_mul (a b : mat3) :
  transpose (mat_mul a b) = mat_mul (transpose b) (transpose a).
Proof. unfold transpose, mat_mul; simpl. f_equal; ring. Qed.

Lemma mat_vec_sub (m : mat3) (u v : vec3) :
  vsub (mat_vec m u) (mat_vec m v) = mat_vec m (vsub u v).
Proof. unfold vsub, mat_vec; simpl. f_equal; ring. Qed.

Lemma vsub_translate (u v t : vec3) :
  vsub (vadd u t) (vadd v t) = vsub u v.
Proof. unfold vsub, vadd; simpl. f_equal; ring. Qed.

(** The matrix of a product is the product of the matrices. *)
Lemma rot_from_quat_mul (g q : quat) :
  orient.rot_from_quat (qmul g q)
  = mat_mul (orient.rot_from_quat g) (orient.rot_from_quat q).
Proof.
  unfold orient.rot_from_quat, qmul, mat_mul; simpl. f_equal; ring.
Qed.

(** The matrix of a unit quaternion is orthogonal. *)
Lemma rot_from_quat_orthogonal (g : quat) :
  qnorm2 g = 1 ->
  mat_mul (transpose (orient.rot_from_quat g)) (orient.rot_from_quat g)
  = identity.
Proof.
  intros H.
  assert (H2 : qnorm2 g * qnorm2 g = 1) by (rewrite H; ring).
  unfold identity, orient.rot_from_quat, mat_mul, transpose; simpl.
  f_equal; try ring; rewrite <- H2; unfold qnorm2; ring.
Qed.

(** One label row is unchanged by a rigid motion of the inputs. *)
Lemma local_row_rigid (g q : quat) (t p p_i : vec3) :
  qnorm2 g = 1 ->
  mat_vec (transpose (orient.rot_from_quat (Frame.move_orientation g q)))
          (vsub (Frame.move_position g t p) (Frame.move_position g t p_i))
  = mat_vec (transpose (orient.rot_from_quat q)) (vsub p p_i).
Proof.
  intros H. unfold Frame.move_orientation, Frame.move_position.
  rewrite rot_from_quat_mul, transpose_mul, vsub_translate, mat_vec_sub.
  rewrite mat_vec_mul, <- (mat_vec_mul (transpose (orient.rot_from_quat g))).
  rewrite rot_from_quat_orthogonal by exact H.
  rewrite mat_vec_identity. reflexivity.
Qed.

End Rotations.

(** ** The pose localiser *)

Section Localizer.

Import Comma2k19SequenceDataset.
Import Examples.

Lemma torch_tensor_ok (rows r : list (list vec3)) :
  torch_tensor rows = Ok r -> r = rows.
Proof.
  unfold torch_tensor. destruct rows as [|r0 rest].
  - intros H; injection H as <-; reflexivity.
  - destruct (forallb _ rest); [|discriminate].
    intros H; injection H as <-; reflexivity.
Qed.

Lemma torch_tensor_uniform (n : nat) (rows : list (list vec3)) :
  Forall (fun r => List.length r = n) rows -> torch_tensor rows = Ok rows.
Proof.
  intros Hall. unfold torch_tensor. destruct rows as [|r0 rest]; [reflexivity|].
  inversion Hall as [|? ? Hr0 Hrest]; subst.
  replace (forallb _ rest) with true; [reflexivity|].
  symmetry. apply forallb_forall. intros r' Hin.
  rewrite Forall_forall in Hrest. rewrite (Hrest r' Hin).
  apply Nat.eqb_refl.
Qed.

(** What one iteration of the loop computes. *)
Lemma local_trajectory_ok (ps : list vec3) (qs : list quat) (i : nat)
  (label : list vec3) :
  local_trajectory ps qs i = Ok label <->
  exists q p_i,
    nth_error qs i = Some q /\ nth_error ps i = Some p_i /\
    label = slice (map (fun p => mat_vec (transpose (orient.rot_from_quat q))
                                         (vsub p p_i)) ps)
                  i (i + 10).
Proof.
  unfold local_trajectory, index, sub_row.
  split.
  - destruct (nth_error qs i) as [q|]; simpl; [|discriminate].
    destruct (nth_error ps i) as [p_i|]; simpl; [|discriminate].
    rewrite einsum_is_mat_vec, map_map.
    intros H; injection H as <-. exists q, p_i. auto.
  - intros (q & p_i & -> & -> & ->). simpl.
    rewrite einsum_is_mat_vec, map_map. reflexivity.
Qed.

Lemma localize_label (F : Z) (ps : list vec3) (qs : list quat)
  (labels : list (list vec3)) (i : nat) (label : list vec3) :
  localize F ps qs = Ok labels ->
  nth_error labels i = Some label ->
  local_trajectory ps qs i = Ok label /\ (Z.of_nat i < F)%Z.
Proof.
  unfold localize. intros Hloc Hlab.
  destruct (mapM (local_trajectory ps qs) (range F)) as [rows|e] eqn:Hm;
    simpl in Hloc; [|discriminate].
  apply torch_tensor_ok in Hloc. subst labels.
  destruct (mapM_nth_error _ _ _ _ _ Hm Hlab) as (x & Hx & Hfx).
  apply nth_error_range in Hx. destruct Hx as [-> Hlt]. auto.
Qed.

Lemma local_trajectory_length (ps : list vec3) (qs : list quat) (i : nat)
  (label : list vec3) :
  local_trajectory ps qs i = Ok label ->
  List.length label = Nat.min 10 (List.length ps - i).
Proof.
  intros H. apply local_trajectory_ok in H.
  destruct H as (q & p_i & _ & _ & ->).
  rewrite length_slice, length_map. f_equal. lia.
Qed.

(** The localiser returns labels as soon as there are enough poses
    for every anchor to have its ten rows. *)
Lemma localize_succeeds (F : Z) (ps : list vec3) (qs : list quat) :
  (Z.to_nat F + 9 <= List.length ps)%nat ->
  (Z.to_nat F <= List.length qs)%nat ->
  exists labels, localize F ps qs = Ok labels.
Proof.
  intros Hps Hqs. unfold localize.
  destruct (mapM_all_ok (local_trajectory ps qs) (range F)) as (rows & Hrows).
  - intros i Hi. apply in_seq in Hi.
    destruct (nth_error qs i) as [q|] eqn:Hq.
    2:{ apply nth_error_None in Hq. lia. }
    destruct (nth_error ps i) as [p_i|] eqn:Hp.
    2:{ apply nth_error_None in Hp. lia. }
    eexists. apply local_trajectory_ok. exists q, p_i. auto.
  - rewrite Hrows. simpl. exists rows.
    apply (torch_tensor_uniform 10). apply Forall_forall.
    intros label Hin. apply In_nth_error in Hin. destruct Hin as (i & Hi).
    destruct (mapM_nth_error _ _ _ _ _ Hrows Hi) as (x & Hx & Hfx).
    apply nth_error_range in Hx. destruct Hx as [-> Hlt].
    rewrite (local_trajectory_length _ _ _ _ Hfx). lia.
Qed.

(** C1, as the code has it.  Row [k] of the label of anchor [i] is the
    product of the TRANSPOSE of the matrix of [orientations[i]] with
    [positions[i+k] - positions[i]]: the code names the matrix of the
    quaternion [ecef_from_local] and converts with its transpose,
    [local_from_ecef]. *)
Theorem localize_row (F : Z) (ps : list vec3) (qs : list quat)
  (labels : list (list vec3)) (i k : nat) (label : list vec3) (v : vec3) :
  localize F ps qs = Ok labels ->
  nth_error labels i = Some label ->
  nth_error label k = Some v ->
  exists q p_i p_ik,
    nth_error qs i = Some q /\
    nth_error ps i = Some p_i /\
    nth_error ps (i + k) = Some p_ik /\
    v = mat_vec (transpose (orient.rot_from_quat q)) (vsub p_ik p_i).
Proof.
  intros Hloc Hlab Hrow.
  destruct (localize_label _ _ _ _ _ _ Hloc Hlab) as [Hlt _].
  apply local_trajectory_ok in Hlt.
  destruct Hlt as (q & p_i & Hq & Hp & ->).
  rewrite nth_error_slice in Hrow.
  destruct (k <? i + 10 - i)%nat; [|discriminate].
  rewrite nth_error_map in Hrow.
  destruct (nth_error ps (i + k)) as [p_ik|] eqn:Hpik; [|discriminate].
  simpl in Hrow. injection Hrow as <-.
  exists q, p_i, p_ik. auto.
Qed.

Lemma localize_row_witness :
  exists labels label v,
    localize 1 two_positions two_orientations = Ok labels /\
    nth_error labels 0 = Some label /\
    nth_error label 1 = Some v /\
    exists q p_i p_ik,
      nth_error two_orientations 0 = Some q /\
      nth_error two_positions 0 = Some p_i /\
      nth_error two_positions (0 + 1) = Some p_ik /\
      v = mat_vec (transpose (orient.rot_from_quat q)) (vsub p_ik p_i).
Proof.
  eexists. eexists. eexists.
  split; [reflexivity|]. split; [reflexivity|]. split; [reflexivity|].
  eapply (localize_row 1 two_positions two_orientations _ 0 1); reflexivity.
Defined.

(** The label the code computes on the two example poses: the second
    point lies on the local z axis. *)
Lemma localize_two_poses :
  localize 1 two_positions two_orientations
  = Ok [[mkvec 0 0 0; mkvec 0 0 1]].
Proof.
  unfold localize, two_positions, two_orientations, q_third_turn. simpl.
  unfold slice. simpl.
  repeat f_equal; lra.
Qed.

(** C1, counterexample.  With the matrix of the quaternion itself in
    place of its transpose the second point would lie on the local y
    axis; the code puts it on the z axis. *)
Lemma localize_row_untransposed_fails :
  localize 1 two_positions two_orientations = Ok [[mkvec 0 0 0; mkvec 0 0 1]] /\
  nth_error two_orientations 0 = Some q_third_turn /\
  nth_error two_positions 0 = Some (mkvec 0 0 0) /\
  nth_error two_positions (0 + 1) = Some (mkvec 1 0 0) /\
  mkvec 0 0 1
  <> mat_vec (orient.rot_from_quat q_third_turn)
             (vsub (mkvec 1 0 0) (mkvec 0 0 0)).
Proof.
  split; [exact localize_two_poses|].
  split; [reflexivity|]. split; [reflexivity|]. split; [reflexivity|].
  intros H. apply (f_equal vz) in H.
  unfold mat_vec, orient.rot_from_quat, q_third_turn, vsub in H. simpl in H.
  lra.
Qed.

(** C6.  The first point of every label the localiser returns is the
    zero vector. *)
Theorem localize_first_point_zero (F : Z) (ps : list vec3) (qs : list quat)
  (labels : list (list vec3)) (i : nat) (label : list vec3) :
  localize F ps qs = Ok labels ->
  nth_error labels i = Some label ->
  nth_error label 0 = Some vzero.
Proof.
  intros Hloc Hlab.
  destruct (localize_label _ _ _ _ _ _ Hloc Hlab) as [Hlt _].
  apply local_trajectory_ok in Hlt.
  destruct Hlt as (q & p_i & Hq & Hp & ->).
  rewrite nth_error_slice.
  replace (0 <? i + 10 - i)%nat with true
    by (symmetry; apply Nat.ltb_lt; lia).
  rewrite Nat.add_0_r, nth_error_map, Hp. simpl.
  rewrite vsub_diag, mat_vec_zero. reflexivity.
Qed.

Lemma localize_first_point_zero_witness :
  exists labels label,
    localize 1 two_positions two_orientations = Ok labels /\
    nth_error labels 0 = Some label /\
    nth_error label 0 = Some vzero.
Proof.
  eexists. eexists.
  split; [reflexivity|]. split; [reflexivity|].
  eapply (localize_first_point_zero 1 two_positions two_orientations _ 0);
    reflexivity.
Defined.

End Localizer.

Section LocalizerInvariance.

Import Comma2k19SequenceDataset.
Import Examples.
Open Scope R_scope.

Lemma local_trajectory_rigid (g : quat) (t : vec3) (ps : list vec3)
  (qs : list quat) (i : nat) :
  qnorm2 g = 1 ->
  local_trajectory (map (Frame.move_position g t) ps)
                   (map (Frame.move_orientation g) qs) i
  = local_trajectory ps qs i.
Proof.
  intros Hg. unfold local_trajectory, index.
  rewrite !nth_error_map.
  destruct (nth_error qs i) as [q|]; simpl; [|reflexivity].
  destruct (nth_error ps i) as [p_i|]; simpl; [|reflexivity].
  unfold sub_row. rewrite !einsum_is_mat_vec, !map_map.
  do 2 f_equal. apply map_ext. intros p.
  apply local_row_rigid. exact Hg.
Qed.

(** C7.  Rotating every position by a unit quaternion [g], translating
    it by [t], and composing every orientation with [g] leaves the
    output of the localiser unchanged: same labels, or the same
    exception. *)
Theorem localize_rigid_invariant (g : quat) (t : vec3) (F : Z)
  (ps : list vec3) (qs : list quat) :
  qnorm2 g = 1 ->
  localize F (map (Frame.move_position g t) ps)
             (map (Frame.move_orientation g) qs)
  = localize F ps qs.
Proof.
  intros Hg. unfold localize. f_equal.
  apply mapM_ext_in. intros i _.
  apply local_trajectory_rigid. exact Hg.
Qed.

Lemma q_third_turn_unit : qnorm2 q_third_turn = 1.
Proof. unfold qnorm2, q_third_turn; simpl. lra. Defined.

Lemma localize_rigid_invariant_witness :
  qnorm2 q_third_turn = 1 /\
  localize 1 (map (Frame.move_position q_third_turn (mkvec 1 2 3))
                  three_positions)
             (map (Frame.move_orientation q_third_turn) three_orientations)
  = localize 1 three_positions three_orientations.
Proof.
  split; [exact q_third_turn_unit|].
  apply (localize_rigid_invariant q_third_turn (mkvec 1 2 3) 1
                                  three_positions three_orientations).
  exact q_third_turn_unit.
Defined.

(** C8 (the code at the failing input).  With [num_pts = 20] and a
    video of 61 frames the dataset returns 40 labels of 10 rows each,
    not of 20: the slice of l.239 takes [i : i + 10] whatever
    [num_pts] is. *)
Theorem getitem_rows_with_num_pts_20 :
  (labels <- getitem (init 20) 0 true 61
                     straight_positions straight_orientations ;;
   Ok (map (@List.length vec3) labels))
  = Ok (repeat 10%nat 40).
Proof. vm_compute. reflexivity. Qed.

(** With fewer than ten points requested the last anchors run out of
    poses, the labels have different lengths and building the tensor
    fails. *)
Lemma getitem_rows_with_num_pts_5 :
  getitem (init 5) 0 true 46
          (firstn 46 straight_positions) (firstn 46 straight_orientations)
  = Raise ValueError_ragged.
Proof. vm_compute. reflexivity. Qed.

(** X8.  Whatever [num_pts] is, a label never has more than ten rows. *)
Lemma getitem_label_length (self : t) (draw n_frames : Z)
  (positions : list vec3) (orientations : list quat)
  (labels : list (list vec3)) (label : list vec3) :
  getitem self draw true n_frames positions orientations = Ok labels ->
  In label labels ->
  (List.length label <= 10)%nat.
Proof.
  unfold getitem. simpl.
  destruct (sample_window _ _ _ _) as [w|e]; simpl; [|discriminate].
  intros Hloc Hin. apply In_nth_error in Hin. destruct Hin as (i & Hi).
  destruct (localize_label _ _ _ _ _ _ Hloc Hi) as [Hlt _].
  rewrite (local_trajectory_length _ _ _ _ Hlt). lia.
Qed.

End LocalizerInvariance.

(** ** The single-frame dataset *)

Section Planning.

Import PlanningDataset.
Import Examples.
Open Scope R_scope.

Lemma f32_1e_2_bounds : 0 < f32_1e_2 < 1 / 100.
Proof. unfold f32_1e_2. lra. Qed.

(** What a call that returns has computed. *)
Lemma planning_getitem_ok (self : t) (future_poses : list row) (u : R)
  (out : tensor) :
  getitem self future_poses u = Ok out ->
  future_poses <> [] /\
  (out = clamp_forward (torch_tensor future_poses) \/
   out = flip_lateral (clamp_forward (torch_tensor future_poses))).
Proof.
  unfold getitem. destruct future_poses as [|r rest]; [discriminate|].
  intros H. split; [discriminate|].
  destruct (enable_aug self && String.eqb (split self) "train");
    [destruct (Rlt_dec (1 / 2) u)|]; injection H as <-; auto.
Qed.

Lemma clamp_forward_float_in (rows : list vec3) (out : list vec3) (p : vec3) :
  clamp_forward (Float32 rows) = Float32 out \/
  flip_lateral (clamp_forward (Float32 rows)) = Float32 out ->
  In p out -> f32_1e_2 <= vx p.
Proof.
  simpl. intros [H|H] Hin; injection H as <-.
  - apply in_map_iff in Hin. destruct Hin as (p0 & <- & _).
    simpl. apply Rmax_r.
  - rewrite map_map in Hin. apply in_map_iff in Hin.
    destruct Hin as (p0 & <- & _). simpl. apply Rmax_r.
Qed.

(** C10, as the code has it.  When the label holds at least one
    floating-point number the returned tensor is [float32], and the
    first coordinate of every row is at least the [float32] value of
    [1e-2], with or without the augmentation, whatever the random
    draw. *)
Theorem getitem_forward_at_least_float32_1e_2 (self : t)
  (future_poses : list row) (u : R) (out : tensor) :
  getitem self future_poses u = Ok out ->
  all_int future_poses = false ->
  exists rows,
    out = Float32 rows /\
    forall p, In p rows -> f32_1e_2 <= vx p /\ 0 < vx p.
Proof.
  intros Hget Hfloat.
  destruct (planning_getitem_ok _ _ _ _ Hget) as [_ Hout].
  unfold torch_tensor in Hout. rewrite Hfloat in Hout.
  set (rows0 := map _ future_poses) in Hout.
  assert (Hrows : exists rows, out = Float32 rows /\
            (clamp_forward (Float32 rows0) = Float32 rows \/
             flip_lateral (clamp_forward (Float32 rows0)) = Float32 rows)).
  { destruct Hout as [-> | ->]; simpl; eexists; split; eauto. }
  destruct Hrows as (rows & -> & Hrows).
  exists rows. split; [reflexivity|].
  intros p Hin.
  pose proof (clamp_forward_float_in rows0 rows p Hrows Hin) as Hp.
  pose proof f32_1e_2_bounds. split; lra.
Qed.

Lemma getitem_forward_at_least_float32_1e_2_witness :
  getitem (init "train") stored_future_poses 0
    = Ok (Float32 [mkvec (Rmax (-1) f32_1e_2) (1 / 2) 0;
                   mkvec (Rmax 3 f32_1e_2) (-1) 0]) /\
  all_int stored_future_poses = false /\
  exists rows,
    Float32 [mkvec (Rmax (-1) f32_1e_2) (1 / 2) 0;
             mkvec (Rmax 3 f32_1e_2) (-1) 0] = Float32 rows /\
    forall p, In p rows -> f32_1e_2 <= vx p /\ 0 < vx p.
Proof.
  assert (H1 : getitem (init "train") stored_future_poses 0
               = Ok (Float32 [mkvec (Rmax (-1) f32_1e_2) (1 / 2) 0;
                              mkvec (Rmax 3 f32_1e_2) (-1) 0]))
    by reflexivity.
  assert (H2 : all_int stored_future_poses = false) by reflexivity.
  split; [exact H1|]. split; [exact H2|].
  exact (getitem_forward_at_least_float32_1e_2 (init "train")
           stored_future_poses 0 _ H1 H2).
Defined.

(** C10, counterexample.  A label of floating-point numbers with a
    point behind the vehicle: the forward coordinate comes back as the
    [float32] value of [1e-2], which is below one hundredth.  The same
    label written with integers comes back with forward coordinate 0. *)
Lemma getitem_forward_below_1e_2 :
  getitem (init "train") stored_future_poses 0
    = Ok (Float32 [mkvec (Rmax (-1) f32_1e_2) (1 / 2) 0;
                   mkvec (Rmax 3 f32_1e_2) (-1) 0]) /\
  Rmax (-1) f32_1e_2 < 1 / 100 /\
  getitem (init "train") integer_future_poses 0
    = Ok (Int64 [(0, 0, 0); (3, 0, 0)]%Z) /\
  IZR 0 < 1 / 100.
Proof.
  pose proof f32_1e_2_bounds as Hb.
  split; [reflexivity|]. split.
  - rewrite Rmax_right by lra. lra.
  - split; [reflexivity | lra].
Qed.

End Planning.

(** ** The training loop *)

Section Loop.

Import Train.
Open Scope Z_scope.

Lemma optimizer_steps_app (a b : list event) :
  optimizer_steps (a ++ b) = optimizer_steps a + optimizer_steps b.
Proof.
  unfold optimizer_steps. rewrite filter_app, length_app. lia.
Qed.

Lemma optimizer_steps_step_events (rank n : Z) (t : nat) :
  optimizer_steps (step_events rank n t) = 0.
Proof. unfold step_events. destruct (rank =? 0); reflexivity. Qed.

Lemma optimizer_steps_update (total : fval) :
  optimizer_steps (update_events total) = 1.
Proof. reflexivity. Qed.

Lemma optimizer_steps_boundary (total : fval) :
  optimizer_steps (Detach :: update_events total) = 1.
Proof. reflexivity. Qed.

Lemma total_add_tensor (v : py_total) (x : fval) :
  total_add v x = Tensor (total_add_val v x).
Proof. destruct v; reflexivity. Qed.

(** One time step, run: the counter moves, the loss is accumulated,
    and at a multiple of [T] the accumulated loss is applied and
    [total_loss] goes back to the integer 0. *)
Lemma train_step_run (rank T : Z) (t : nat) (l : fval) (s : state) :
  T <> 0 ->
  train_step rank T (t, l) s =
  let n := num_steps s + 1 in
  let total := total_add_val (total_loss s) (fdiv_int l T) in
  if (Z.of_nat t + 1) mod T =? 0 then
    (Normal, {| num_steps := n;
                total_loss := PyInt 0;
                trace := trace s ++ step_events rank n t
                                 ++ Detach :: update_events total |})
  else
    (Normal, {| num_steps := n;
                total_loss := Tensor total;
                trace := trace s ++ step_events rank n t |}).
Proof.
  intros HT. destruct s as [n0 v tr].
  unfold train_step, py_mod, step_events. simpl.
  destruct (Z.eqb_spec T 0) as [|_]; [contradiction|].
  destruct (rank =? 0); destruct ((Z.of_nat t + 1) mod T =? 0);
    unfold then_, reading, emit, set_num_steps, set_total_loss, log_scalars,
      truncation_boundary, backward, skip, then_, reading, emit,
      set_total_loss;
    simpl; rewrite ?total_add_tensor; simpl; rewrite <- ?app_assoc;
    reflexivity.
Qed.

Lemma ceil_div_floor (a b : Z) :
  0 < b ->
  ceil_div a b = a / b + (if a mod b =? 0 then 0 else 1).
Proof.
  intros Hb. unfold ceil_div.
  pose proof (Z.div_mod a b ltac:(lia)) as Ha.
  pose proof (Z.mod_pos_bound a b Hb) as Hr.
  destruct (Z.eqb_spec (a mod b) 0) as [H0|H0].
  - symmetry. apply (Z.div_unique _ _ _ (b - 1)); lia.
  - symmetry. apply (Z.div_unique _ _ _ (a mod b - 1)); lia.
Qed.

(** [ceil_div a b] is the least number of segments of length [b] that
    cover [a] steps. *)
Lemma ceil_div_least (a b : Z) :
  0 < b -> b * (ceil_div a b - 1) < a <= b * ceil_div a b.
Proof.
  intros Hb. rewrite (ceil_div_floor a b Hb).
  pose proof (Z.div_mod a b ltac:(lia)) as Ha.
  pose proof (Z.mod_pos_bound a b Hb) as Hr.
  destruct (Z.eqb_spec (a mod b) 0); nia.
Qed.

Lemma div_succ (t T : Z) :
  0 < T ->
  (t + 1) / T = t / T + (if (t + 1) mod T =? 0 then 1 else 0).
Proof.
  intros HT.
  pose proof (Z.div_mod t T ltac:(lia)) as Ht.
  pose proof (Z.mod_pos_bound t T HT) as Hr.
  pose proof (Z.div_mod (t + 1) T ltac:(lia)) as Ht1.
  pose proof (Z.mod_pos_bound (t + 1) T HT) as Hr1.
  destruct (Z.eqb_spec ((t + 1) mod T) 0) as [H0|H0]; nia.
Qed.

(** The loop over the steps of a window, started at step [t] in a state
    where [total_loss] is an integer exactly when [t] is a multiple of
    [T]: it falls through, takes one optimiser step per multiple of [T]
    it passes, and ends in a state with the same property. *)
Lemma window_loop_steps (rank T : Z) :
  0 < T ->
  forall (data : window) (t : nat) (s : state),
    (isinstance_int (total_loss s) = true <-> Z.of_nat t mod T = 0) ->
    exists s' evs,
      for_each (enumerate_from t data) (train_step rank T) s = (Normal, s') /\
      trace s' = trace s ++ evs /\
      optimizer_steps evs
        = (Z.of_nat t + Z.of_nat (List.length data)) / T - Z.of_nat t / T /\
      (isinstance_int (total_loss s') = true
       <-> (Z.of_nat t + Z.of_nat (List.length data)) mod T = 0).
Proof.
  intros HT. induction data as [|l rest IH]; intros t s Hinv.
  - exists s, []. simpl. rewrite app_nil_r, Z.add_0_r.
    repeat split; try tauto. unfold optimizer_steps. simpl. lia.
  - simpl for_each. rewrite train_step_run by lia. cbv zeta.
    replace (Z.of_nat t + Z.of_nat (List.length (l :: rest)))
      with (Z.of_nat (S t) + Z.of_nat (List.length rest))
      by (simpl List.length; lia).
    pose proof (div_succ (Z.of_nat t) T HT) as Hdiv.
    replace (Z.of_nat t + 1) with (Z.of_nat (S t)) in * by lia.
    destruct (Z.eqb_spec (Z.of_nat (S t) mod T) 0) as [H0|H0].
    + match goal with |- context [for_each _ _ ?s0] =>
        destruct (IH (S t) s0) as (s' & evs & Hrun & Htr & Hcnt & Hinv')
      end.
      { simpl. tauto. }
      cbn [trace] in Htr.
      exists s'.
      exists ((step_events rank (num_steps s + 1) t
               ++ Detach :: update_events
                    (total_add_val (total_loss s) (fdiv_int l T))) ++ evs).
      split; [exact Hrun|].
      split; [rewrite Htr; symmetry; apply app_assoc|].
      split; [|exact Hinv'].
      rewrite !optimizer_steps_app, optimizer_steps_step_events, Hcnt.
      rewrite optimizer_steps_boundary. lia.
    + match goal with |- context [for_each _ _ ?s0] =>
        destruct (IH (S t) s0) as (s' & evs & Hrun & Htr & Hcnt & Hinv')
      end.
      { simpl. split; [discriminate | intros; contradiction]. }
      cbn [trace] in Htr.
      exists s'.
      exists (step_events rank (num_steps s + 1) t ++ evs).
      split; [exact Hrun|].
      split; [rewrite Htr; symmetry; apply app_assoc|].
      split; [|exact Hinv'].
      rewrite !optimizer_steps_app, optimizer_steps_step_events, Hcnt.
      lia.
Qed.

End Loop.

Section Window.

Import Train.
Open Scope Z_scope.

(** The driver's statements around the loop, run. *)
Lemma train_window_run (rank T : Z) (data : window) (s : state) :
  train_window rank T data s =
  match for_each (enumerate_from 0 data) (train_step rank T)
                 {| num_steps := num_steps s;
                    total_loss := PyInt 0;
                    trace := trace s ++ [ZerosHidden] |} with
  | (Normal, s1) =>
      match total_loss s1 with
      | PyInt _ => (Normal, s1)
      | Tensor l =>
          (Normal, {| num_steps := num_steps s1;
                      total_loss := Tensor l;
                      trace := trace s1 ++ update_events l |})
      end
  | (Continue, s1) => (Continue, s1)
  | (Raised e, s1) => (Raised e, s1)
  end.
Proof.
  unfold train_window, then_, reading. simpl.
  destruct (for_each _ _ _) as [[| |e] s1]; try reflexivity.
  destruct s1 as [n1 [k|l] tr1]; simpl; [reflexivity|].
  unfold final_flush, then_, backward, reading, emit. simpl.
  rewrite <- !app_assoc. reflexivity.
Qed.

(** C4.  For a positive truncation length [T], the driver runs a
    window of [seq_length] steps to its end and takes exactly
    [ceil(seq_length / T)] optimiser steps there: one per full multiple
    of [T], and one more when [seq_length] is not a multiple of [T]. *)
Theorem optimizer_steps_per_window (rank T : Z) (data : window) (s : state) :
  0 < T ->
  let seq_length := Z.of_nat (List.length data) in
  exists s' evs,
    train_window rank T data s = (Normal, s') /\
    trace s' = trace s ++ evs /\
    optimizer_steps evs = ceil_div seq_length T /\
    optimizer_steps evs
      = seq_length / T + (if seq_length mod T =? 0 then 0 else 1).
Proof.
  intros HT seq_length. rewrite train_window_run.
  match goal with |- context [for_each _ _ ?s0] =>
    destruct (window_loop_steps rank T HT data 0 s0)
      as (s1 & evs & Hrun & Htr & Hcnt & Hinv)
  end.
  { simpl. rewrite Z.mod_0_l by lia. tauto. }
  rewrite Hrun. cbn [trace] in Htr.
  change (Z.of_nat 0) with 0 in Hcnt, Hinv.
  rewrite Z.add_0_l in Hcnt, Hinv.
  rewrite Z.div_0_l, Z.sub_0_r in Hcnt by lia.
  fold seq_length in Hcnt, Hinv.
  rewrite (ceil_div_floor seq_length T HT).
  destruct (total_loss s1) as [k|l] eqn:Htot; simpl in Hinv.
  - assert (H0 : seq_length mod T = 0) by tauto.
    rewrite H0. simpl.
    exists s1, ([ZerosHidden] ++ evs).
    split; [reflexivity|].
    split; [rewrite Htr; symmetry; apply app_assoc|].
    rewrite optimizer_steps_app, Hcnt.
    change (optimizer_steps [ZerosHidden]) with 0. lia.
  - destruct (Z.eqb_spec (seq_length mod T) 0) as [H0|H0].
    { apply Hinv in H0. discriminate. }
    eexists. exists (([ZerosHidden] ++ evs) ++ update_events l).
    split; [reflexivity|].
    split; [cbn [trace]; rewrite Htr, <- !app_assoc; reflexivity|].
    rewrite !optimizer_steps_app, Hcnt, optimizer_steps_update.
    change (optimizer_steps [ZerosHidden]) with 0. lia.
Qed.

(** The scenario of the spec: 7 steps, [T = 3], 3 optimiser steps. *)
Lemma optimizer_steps_per_window_witness :
  0 < 3 /\
  exists s' evs,
    train_window 0 3 (repeat (Finite 1) 7) init_state = (Normal, s') /\
    trace s' = trace init_state ++ evs /\
    optimizer_steps evs = 3 /\
    optimizer_steps evs = 2 + 1.
Proof.
  split; [lia|].
  apply (optimizer_steps_per_window 0 3 (repeat (Finite 1%R) 7) init_state).
  lia.
Defined.

Lemma ceil_div_7_3 : ceil_div 7 3 = 3.
Proof. reflexivity. Qed.

(** The loop falls through from any state. *)
Lemma window_loop_normal (rank T : Z) :
  0 < T ->
  forall (data : window) (t : nat) (s : state),
    exists s' evs,
      for_each (enumerate_from t data) (train_step rank T) s = (Normal, s') /\
      trace s' = trace s ++ evs.
Proof.
  intros HT. induction data as [|l rest IH]; intros t s.
  - exists s, []. simpl. rewrite app_nil_r. auto.
  - simpl for_each. rewrite train_step_run by lia. cbv zeta.
    destruct (_ =? 0);
      match goal with |- context [for_each _ _ ?s0] =>
        destruct (IH (S t) s0) as (s' & evs & Hrun & Htr)
      end;
      cbn [trace] in Htr; exists s'; eexists;
      (split; [exact Hrun|]); rewrite Htr, <- app_assoc; reflexivity.
Qed.

Lemma total_add_val_nonfinite (v : py_total) (l : fval) (T : Z) :
  v = Tensor NonFinite \/ l = NonFinite ->
  total_add_val v (fdiv_int l T) = NonFinite.
Proof.
  intros [-> | ->]; simpl; [reflexivity|].
  destruct v as [k|[x|]]; reflexivity.
Qed.

(** Once a non-finite loss has entered [total_loss], either the loop
    applies a non-finite total, or it ends with one still pending. *)
Lemma window_loop_nonfinite (rank T : Z) :
  0 < T ->
  forall (data : window) (t : nat) (s : state),
    total_loss s = Tensor NonFinite \/ In NonFinite data ->
    exists s' evs,
      for_each (enumerate_from t data) (train_step rank T) s = (Normal, s') /\
      trace s' = trace s ++ evs /\
      ((exists pre post, evs = pre ++ update_events NonFinite ++ post) \/
       total_loss s' = Tensor NonFinite).
Proof.
  intros HT. induction data as [|l rest IH]; intros t s Hbad.
  - destruct Hbad as [Hbad|[]].
    exists s, []. simpl. rewrite app_nil_r. auto.
  - simpl for_each. rewrite train_step_run by lia. cbv zeta.
    set (total := total_add_val (total_loss s) (fdiv_int l T)).
    set (evs0 := step_events rank (num_steps s + 1) t).
    assert (Hcase : (total_loss s = Tensor NonFinite \/ l = NonFinite)
                    \/ In NonFinite rest).
    { destruct Hbad as [H|[H|H]]; auto. }
    destruct ((Z.of_nat t + 1) mod T =? 0).
    + destruct Hcase as [Hnow|Hlater].
      * apply (total_add_val_nonfinite _ _ T) in Hnow. fold total in Hnow.
        match goal with |- context [for_each _ _ ?s0] =>
          destruct (window_loop_normal rank T HT rest (S t) s0)
            as (s' & evs & Hrun & Htr)
        end.
        cbn [trace] in Htr. exists s'. eexists.
        split; [exact Hrun|].
        split; [rewrite Htr, <- app_assoc; reflexivity|].
        left. exists (evs0 ++ [Detach]), evs.
        rewrite Hnow, <- !app_assoc. reflexivity.
      * match goal with |- context [for_each _ _ ?s0] =>
          destruct (IH (S t) s0 (or_intror Hlater))
            as (s' & evs & Hrun & Htr & Hres)
        end.
        cbn [trace] in Htr. exists s'. eexists.
        split; [exact Hrun|].
        split; [rewrite Htr, <- app_assoc; reflexivity|].
        destruct Hres as [(pre & post & ->)|Hres]; [|auto].
        left. exists ((evs0 ++ Detach :: update_events total) ++ pre), post.
        rewrite <- !app_assoc. reflexivity.
    + match goal with |- context [for_each _ _ ?s0] =>
        destruct (IH (S t) s0) as (s' & evs & Hrun & Htr & Hres)
      end.
      { destruct Hcase as [Hnow|Hlater]; [left|right; exact Hlater].
        apply (total_add_val_nonfinite _ _ T) in Hnow. fold total in Hnow.
        simpl. rewrite Hnow. reflexivity. }
      cbn [trace] in Htr. exists s'. eexists.
      split; [exact Hrun|].
      split; [rewrite Htr, <- app_assoc; reflexivity|].
      destruct Hres as [(pre & post & ->)|Hres]; [|auto].
      left. exists (evs0 ++ pre), post.
      rewrite <- !app_assoc. reflexivity.
Qed.

End Window.

Section NonFiniteLoss.

Import Train.
Open Scope Z_scope.

(** C5, as the code has it.  The driver never tests the loss: when the
    loss of some step of a window is non-finite, the total of that
    step's segment is non-finite and is still back-propagated and
    followed by an optimiser step and a scheduler step. *)
Theorem nonfinite_loss_is_applied (rank T : Z) (data : window) (s : state) :
  0 < T ->
  In NonFinite data ->
  exists s' pre post,
    train_window rank T data s = (Normal, s') /\
    trace s' = trace s ++ pre
               ++ [ZeroGrad; Backward NonFinite; OptimizerStep; LrSchedulerStep]
               ++ post.
Proof.
  intros HT Hin. rewrite train_window_run.
  match goal with |- context [for_each _ _ ?s0] =>
    destruct (window_loop_nonfinite rank T HT data 0 s0 (or_intror Hin))
      as (s1 & evs & Hrun & Htr & Hres)
  end.
  rewrite Hrun. cbn [trace] in Htr.
  destruct Hres as [(pre & post & ->)|Hpending].
  - destruct (total_loss s1) as [k|l].
    + exists s1, ([ZerosHidden] ++ pre), post.
      split; [reflexivity|].
      rewrite Htr, <- !app_assoc. reflexivity.
    + eexists. exists ([ZerosHidden] ++ pre), (post ++ update_events l).
      split; [reflexivity|].
      cbn [trace]. rewrite Htr, <- !app_assoc. reflexivity.
  - rewrite Hpending.
    eexists. exists ([ZerosHidden] ++ evs), [].
    split; [reflexivity|].
    cbn [trace]. rewrite Htr, <- !app_assoc. reflexivity.
Qed.

Lemma nonfinite_loss_is_applied_witness :
  0 < 3 /\
  In NonFinite [Finite 1; NonFinite; Finite 1; Finite 1] /\
  exists s' pre post,
    train_window 0 3 [Finite 1; NonFinite; Finite 1; Finite 1] init_state
      = (Normal, s') /\
    trace s' = trace init_state ++ pre
               ++ [ZeroGrad; Backward NonFinite; OptimizerStep; LrSchedulerStep]
               ++ post.
Proof.
  assert (Hin : In NonFinite [Finite 1%R; NonFinite; Finite 1%R; Finite 1%R])
    by (right; left; reflexivity).
  split; [lia|]. split; [exact Hin|].
  apply (nonfinite_loss_is_applied 0 3 _ init_state); [lia | exact Hin].
Defined.

(** C5, counterexample.  A window whose only loss is non-finite, with
    the truncation length of the code: the driver zeroes the
    gradients, back-propagates the non-finite total and steps the
    optimiser and the scheduler; nothing is skipped. *)
Lemma nonfinite_loss_not_skipped :
  train_window 0 (optimize_per_n_step SequenceBaselineV1_init)
               [NonFinite] init_state
  = (Normal,
     {| num_steps := 1;
        total_loss := Tensor NonFinite;
        trace := [ZerosHidden; ModelForward 0; LossEval 0;
                  AddScalar "loss/cls" 1; AddScalar "loss/reg" 1;
                  AddScalar "loss/reg_x" 1; AddScalar "loss/reg_y" 1;
                  AddScalar "loss/reg_z" 1;
                  ZeroGrad; Backward NonFinite; OptimizerStep;
                  LrSchedulerStep] |})
  /\ optimizer_steps
       (trace (snd (train_window 0 (optimize_per_n_step SequenceBaselineV1_init)
                                 [NonFinite] init_state))) = 1.
Proof. split; reflexivity. Qed.

End NonFiniteLoss.

(** ** Validation *)

Section Validation.

Import Train.
Open Scope Z_scope.

Lemma validation_steps_app (a b : list event) :
  validation_steps (a ++ b) = validation_steps a + validation_steps b.
Proof.
  unfold validation_steps. rewrite filter_app, length_app. lia.
Qed.

Lemma quiet_skip : quiet skip.
Proof. intros s. reflexivity. Qed.

Lemma quiet_raise (e : exn) : quiet (raise e).
Proof. intros s. reflexivity. Qed.

Lemma quiet_set_total_loss (v : py_total) : quiet (set_total_loss v).
Proof. intros s. reflexivity. Qed.

Lemma quiet_set_num_steps (n : Z) : quiet (set_num_steps n).
Proof. intros s. reflexivity. Qed.

Lemma quiet_emit (e : event) : is_validation_step e = false -> quiet (emit e).
Proof.
  intros He s. simpl. rewrite validation_steps_app.
  unfold validation_steps at 2. simpl. rewrite He. simpl. lia.
Qed.

Lemma quiet_then (a b : stmt) : quiet a -> quiet b -> quiet (a >> b).
Proof.
  intros Ha Hb s. unfold then_. specialize (Ha s).
  destruct (a s) as [[| |e] s']; simpl in *; try exact Ha.
  rewrite Hb. exact Ha.
Qed.

Lemma quiet_for_each {A : Type} (body : A -> stmt) (xs : list A) :
  (forall x, quiet (body x)) -> quiet (for_each xs body).
Proof.
  intros Hbody. induction xs as [|x rest IH]; intros s; simpl; [reflexivity|].
  specialize (Hbody x s).
  destruct (body x s) as [[| |e] s']; simpl in *;
    try rewrite IH; exact Hbody.
Qed.

Lemma quiet_reading (f : state -> stmt) :
  (forall s0, quiet (f s0)) -> quiet (reading f).
Proof. intros Hf s. apply Hf. Qed.

Lemma quiet_if (b : bool) (c1 c2 : stmt) :
  quiet c1 -> quiet c2 -> quiet (if b then c1 else c2).
Proof. destruct b; auto. Qed.

(** Statements built from calls other than [validation_step]. *)
Ltac quiet_blocks :=
  repeat
    match goal with
    | |- quiet (_ >> _) => apply quiet_then
    | |- quiet (if _ then _ else _) => apply quiet_if
    | |- quiet skip => apply quiet_skip
    | |- quiet (raise _) => apply quiet_raise
    | |- quiet (set_total_loss _) => apply quiet_set_total_loss
    | |- quiet (set_num_steps _) => apply quiet_set_num_steps
    | |- quiet (emit _) => apply quiet_emit; reflexivity
    | |- quiet (reading _) => apply quiet_reading; intros ?
    | |- quiet (match ?x with _ => _ end) => destruct x
    end.

Lemma quiet_backward : quiet backward.
Proof. unfold backward. quiet_blocks. Qed.

Lemma quiet_train_step (rank T : Z) (ts : nat * fval) :
  quiet (train_step rank T ts).
Proof.
  unfold train_step, truncation_boundary, log_scalars, backward.
  quiet_blocks.
Qed.

Lemma quiet_train_window (rank T : Z) (data : window) :
  quiet (train_window rank T data).
Proof.
  unfold train_window, final_flush, backward. quiet_blocks.
  apply quiet_for_each. intros ts. apply quiet_train_step.
Qed.

(** One epoch: when the test of l.185 holds the block ends at
    [continue], above the validation loop; otherwise the block is not
    entered. *)
Lemma quiet_epoch_body (rank : Z) (model : SequenceBaselineV1)
  (train_dataloader : nat -> list window) (val_dataloader : list unit)
  (epoch : nat) :
  quiet (epoch_body rank model train_dataloader val_dataloader epoch).
Proof.
  unfold epoch_body.
  apply quiet_then; [apply quiet_emit; reflexivity|].
  apply quiet_then.
  - apply quiet_for_each. intros data. apply quiet_train_window.
  - apply quiet_if; [|apply quiet_skip].
    intros s. simpl. rewrite validation_steps_app.
    change (validation_steps [PyPrint "skipping val..."]) with 0. lia.
Qed.

(** C9.  Whatever the rank, the model, the number of epochs and the
    contents of the two loaders, a run of [main] makes no call to
    [validation_step]. *)
Theorem main_never_validates (rank : Z) (model : SequenceBaselineV1)
  (epochs : Z) (train_dataloader : nat -> list window)
  (val_dataloader : list unit) :
  validation_steps
    (trace (snd (main rank model epochs train_dataloader val_dataloader
                      init_state)))
  = 0.
Proof.
  assert (Hq : quiet (main rank model epochs train_dataloader val_dataloader)).
  { unfold main. quiet_blocks.
    apply quiet_for_each. intros epoch. apply quiet_epoch_body. }
  rewrite Hq. reflexivity.
Qed.

(** The validation loop is not empty of calls by itself: run on its
    own, it calls [validation_step] once per batch. *)
Lemma validation_loop_alone :
  validation_steps
    (trace (snd (for_each [tt; tt; tt]
                          (fun data => emit DataCuda >> emit ValidationStep)
                          init_state)))
  = 3.
Proof. reflexivity. Qed.

(** An epoch on which the test of l.185 holds, with a validation loader
    of three batches: the block prints and stops at [continue]. *)
Lemma epoch_9_skips_validation :
  epoch_body 0 SequenceBaselineV1_init (fun _ => []) [tt; tt; tt] 9 init_state
  = (Continue,
     {| num_steps := 0;
        total_loss := PyInt 0;
        trace := [SetEpoch 9; PyPrint "skipping val..."] |}).
Proof. reflexivity. Qed.

End Validation.

(** * Further properties of the datasets *)

Section MoreLists.

Context {A B : Type}.

Lemma mapM_length (f : A -> result B) :
  forall (xs : list A) (ys : list B),
    mapM f xs = Ok ys -> List.length ys = List.length xs.
Proof.
  induction xs as [|x rest IH]; intros ys Hm; simpl in Hm.
  - injection Hm as <-. reflexivity.
  - destruct (f x) as [y0|e]; simpl in Hm; [|discriminate].
    destruct (mapM f rest) as [ys0|e]; simpl in Hm; [|discriminate].
    injection Hm as <-. simpl. f_equal. auto.
Qed.


Lemma slice_map (f : A -> B) (a : list A) (i j : nat) :
  slice (map f a) i j = map f (slice a i j).
Proof. unfold slice. rewrite skipn_map, firstn_map. reflexivity. Qed.

Lemma forallb_false_in (p : A -> bool) (l : list A) (x : A) :
  In x l -> p x = false -> forallb p l = false.
Proof.
  intros Hin Hx. destruct (forallb p l) eqn:Hall; [|reflexivity].
  rewrite forallb_forall in Hall. rewrite (Hall x Hin) in Hx. discriminate.
Qed.

End MoreLists.

Section SliceFacts.

Open Scope Z_scope.

Lemma clip_index_nonneg (n : nat) (i : Z) :
  0 <= i -> clip_index n i = Nat.min (Z.to_nat i) n.
Proof.
  intros Hi. unfold clip_index.
  destruct (Z.ltb_spec i 0); [lia|reflexivity].
Qed.

(** With bounds that are not negative a Python slice is [slice]. *)
Lemma slice_z_nonneg {A : Type} (a : list A) (i j : Z) :
  0 <= i -> 0 <= j -> slice_z a i j = slice a (Z.to_nat i) (Z.to_nat j).
Proof.
  intros Hi Hj. unfold slice_z, slice.
  rewrite !clip_index_nonneg by lia.
  destruct (Nat.le_gt_cases (List.length a) (Z.to_nat i)) as [Hout|Hin].
  - rewrite (Nat.min_r (Z.to_nat i)) by lia.
    rewrite (@skipn_all2 A (List.length a) a) by lia.
    rewrite (@skipn_all2 A (Z.to_nat i) a) by lia.
    rewrite !firstn_nil. reflexivity.
  - rewrite (Nat.min_l (Z.to_nat i)) by lia.
    destruct (Nat.le_gt_cases (Z.to_nat j) (List.length a)) as [Hj'|Hj'].
    + rewrite (Nat.min_l (Z.to_nat j)) by lia. reflexivity.
    + rewrite (Nat.min_r (Z.to_nat j)) by lia.
      rewrite !firstn_all2 by (rewrite length_skipn; lia). reflexivity.
Qed.

(** Entry [k] of a slice that starts at a non-negative [i] is entry
    [i + k] of the list, whatever the sign of the stop. *)
Lemma nth_error_slice_z {A : Type} (a : list A) (i j : Z) (k : nat) (x : A) :
  0 <= i ->
  nth_error (slice_z a i j) k = Some x ->
  nth_error a (Z.to_nat i + k) = Some x.
Proof.
  intros Hi. unfold slice_z. rewrite nth_error_slice.
  destruct (_ <? _)%nat; [|discriminate].
  rewrite clip_index_nonneg by lia.
  destruct (Nat.le_gt_cases (List.length a) (Z.to_nat i)) as [Hout|Hin].
  - rewrite (Nat.min_r (Z.to_nat i)) by lia. intros H.
    assert (Hn : nth_error a (List.length a + k) <> None)
      by (rewrite H; discriminate).
    apply nth_error_Some in Hn. lia.
  - rewrite (Nat.min_l (Z.to_nat i)) by lia. auto.
Qed.

End SliceFacts.

Section Comma2k19Getitem.

Import Comma2k19SequenceDataset.
Import Examples.

(** What a returned window says about its two indices. *)
Lemma sample_window_inv (draw n F N : Z) (w : Z * Z) :
  sample_window draw n F N = Ok w ->
  (1 <= fst w <= n - F - N)%Z /\ snd w = (fst w + F)%Z.
Proof.
  unfold sample_window.
  destruct (Z.ltb_spec n (F + N)); [discriminate|].
  destruct (randint draw 1 (n - (F + N) + 1)) as [r|e] eqn:Hr; simpl;
    [|discriminate].
  intros H0. injection H0 as <-. simpl.
  apply randint_range in Hr. split; [lia|reflexivity].
Qed.

Lemma sample_window_some (draw n F N : Z) :
  (F + N < n)%Z -> exists w, sample_window draw n F N = Ok w.
Proof.
  intros H. unfold sample_window.
  destruct (Z.ltb_spec n (F + N)); [lia|].
  destruct (randint_ok draw 1 (n - (F + N) + 1)) as (r & ->); [lia|].
  simpl. eauto.
Qed.

(** [__getitem__] once the video is open and the window is drawn. *)
Lemma getitem_run (self : t) (draw n : Z) (ps : list vec3) (qs : list quat)
  (w : Z * Z) :
  sample_window draw n (fix_seq_length self) (num_pts self) = Ok w ->
  getitem self draw true n ps qs =
  localize (fix_seq_length self)
           (slice_z ps (fst w) (snd w + num_pts self))
           (slice_z qs (fst w) (snd w + num_pts self)).
Proof. intros Hw. unfold getitem. simpl. rewrite Hw. reflexivity. Qed.

Lemma getitem_ok_inv (self : t) (draw : Z) (opened : bool) (n : Z)
  (ps : list vec3) (qs : list quat) (labels : list (list vec3)) :
  getitem self draw opened n ps qs = Ok labels ->
  exists w,
    sample_window draw n (fix_seq_length self) (num_pts self) = Ok w /\
    localize (fix_seq_length self)
             (slice_z ps (fst w) (snd w + num_pts self))
             (slice_z qs (fst w) (snd w + num_pts self))
    = Ok labels.
Proof.
  unfold getitem. destruct opened; simpl; [|discriminate].
  destruct (sample_window _ _ _ _) as [w|e]; simpl; [|discriminate].
  intros H. exists w. auto.
Qed.

(** X4.  Labels and recording.  When [__getitem__] returns, the
    sampler has returned a window [(start, stop)], and with that one
    [start] row [k] of the label of step [i] is computed from the poses
    of the recording at the indices [start + i] and [start + i + k]. *)
Theorem getitem_row_global (self : t) (draw : Z) (opened : bool) (n : Z)
  (ps : list vec3) (qs : list quat) (labels : list (list vec3)) :
  getitem self draw opened n ps qs = Ok labels ->
  exists start stop,
    sample_window draw n (fix_seq_length self) (num_pts self)
      = Ok (start, stop) /\
    (1 <= start <= n - fix_seq_length self - num_pts self)%Z /\
    forall (i k : nat) (label : list vec3) (v : vec3),
      nth_error labels i = Some label ->
      nth_error label k = Some v ->
      exists q p_i p_ik,
        nth_error qs (Z.to_nat start + i) = Some q /\
        nth_error ps (Z.to_nat start + i) = Some p_i /\
        nth_error ps (Z.to_nat start + i + k) = Some p_ik /\
        v = mat_vec (transpose (orient.rot_from_quat q)) (vsub p_ik p_i).
Proof.
  intros Hget.
  destruct (getitem_ok_inv _ _ _ _ _ _ _ Hget) as (w & Hw & Hloc).
  destruct (sample_window_inv _ _ _ _ _ Hw) as [Hstart _].
  exists (fst w), (snd w).
  split; [rewrite Hw; destruct w; reflexivity|].
  split; [exact Hstart|].
  intros i k label v Hlab Hrow.
  destruct (localize_label _ _ _ _ _ _ Hloc Hlab) as [Htraj _].
  apply local_trajectory_ok in Htraj.
  destruct Htraj as (q & p_i & Hq & Hp & ->).
  apply nth_error_slice_z in Hq; [|lia].
  apply nth_error_slice_z in Hp; [|lia].
  rewrite nth_error_slice in Hrow.
  destruct (k <? _)%nat; [|discriminate].
  rewrite nth_error_map in Hrow.
  destruct (nth_error (slice_z ps (fst w) (snd w + num_pts self)) (i + k))
    as [p_ik|] eqn:Hpik; [|discriminate].
  apply nth_error_slice_z in Hpik; [|lia].
  simpl in Hrow. injection Hrow as <-.
  exists q, p_i, p_ik.
  rewrite <- Nat.add_assoc. auto.
Qed.

Lemma getitem_row_global_witness :
  exists labels,
    getitem (init 20) 0 true 61 straight_positions straight_orientations
      = Ok labels /\
    exists start stop,
      sample_window 0 61 (fix_seq_length (init 20)) (num_pts (init 20))
        = Ok (start, stop) /\
      (1 <= start <= 61 - fix_seq_length (init 20) - num_pts (init 20))%Z /\
      forall (i k : nat) (label : list vec3) (v : vec3),
        nth_error labels i = Some label ->
        nth_error label k = Some v ->
        exists q p_i p_ik,
          nth_error straight_orientations (Z.to_nat start + i) = Some q /\
          nth_error straight_positions (Z.to_nat start + i) = Some p_i /\
          nth_error straight_positions (Z.to_nat start + i + k) = Some p_ik /\
          v = mat_vec (transpose (orient.rot_from_quat q)) (vsub p_ik p_i).
Proof.
  eexists.
  assert (H1 : getitem (init 20) 0 true 61 straight_positions
                       straight_orientations
               = Ok (match getitem (init 20) 0 true 61 straight_positions
                                   straight_orientations with
                     | Ok l => l
                     | Raise _ => []
                     end))
    by (vm_compute; reflexivity).
  split; [exact H1|].
  exact (getitem_row_global (init 20) 0 true 61 straight_positions
                            straight_orientations _ H1).
Defined.

End Comma2k19Getitem.

Section Comma2k19Shapes.

Import Comma2k19SequenceDataset.
Import Examples.


Lemma anchors_ok (F : Z) (ps : list vec3) (qs : list quat) :
  (Z.to_nat F <= List.length ps)%nat ->
  (Z.to_nat F <= List.length qs)%nat ->
  exists rows, mapM (local_trajectory ps qs) (range F) = Ok rows.
Proof.
  intros Hps Hqs. apply mapM_all_ok.
  intros i Hi. apply in_seq in Hi.
  destruct (nth_error qs i) as [q|] eqn:Hq.
  2:{ apply nth_error_None in Hq. lia. }
  destruct (nth_error ps i) as [p_i|] eqn:Hp.
  2:{ apply nth_error_None in Hp. lia. }
  eexists. apply local_trajectory_ok. exists q, p_i. auto.
Qed.

Lemma rows_shape (F : Z) (ps : list vec3) (qs : list quat)
  (rows : list (list vec3)) :
  mapM (local_trajectory ps qs) (range F) = Ok rows ->
  List.length rows = Z.to_nat F /\
  forall i row, nth_error rows i = Some row ->
    List.length row = Nat.min 10 (List.length ps - i).
Proof.
  intros Hm. split.
  - rewrite (mapM_length _ _ _ Hm). unfold range. apply length_seq.
  - intros i row Hi.
    destruct (mapM_nth_error _ _ _ _ _ Hm Hi) as (x & Hx & Hfx).
    apply nth_error_range in Hx. destruct Hx as [-> _].
    apply (local_trajectory_length _ _ _ _ Hfx).
Qed.

(** The two pose slices of a window that fits the recording. *)
Lemma pose_slice_length {A : Type} (a : list A) (n F N : Z) (w : Z * Z) :
  (1 <= fst w <= n - F - N)%Z -> snd w = (fst w + F)%Z ->
  (0 <= F)%Z -> (0 <= N)%Z ->
  (n <= Z.of_nat (List.length a))%Z ->
  List.length (slice_z a (fst w) (snd w + N)) = Z.to_nat (F + N).
Proof.
  intros Hs He HF HN Hlen.
  rewrite slice_z_nonneg by lia. rewrite length_slice, He. lia.
Qed.

(** X5.  Enough poses and [num_pts >= 9]: the dataset returns
    [fix_seq_length] labels of ten rows each, whatever the draw. *)
Theorem getitem_succeeds (self : t) (draw n : Z) (ps : list vec3)
  (qs : list quat) :
  (0 <= fix_seq_length self)%Z ->
  (9 <= num_pts self)%Z ->
  (fix_seq_length self + num_pts self < n)%Z ->
  (n <= Z.of_nat (List.length ps))%Z ->
  (n <= Z.of_nat (List.length qs))%Z ->
  exists labels,
    getitem self draw true n ps qs = Ok labels /\
    List.length labels = Z.to_nat (fix_seq_length self) /\
    Forall (fun label => List.length label = 10%nat) labels.
Proof.
  intros HF HN Hn Hps Hqs.
  destruct (sample_window_some draw n _ _ Hn) as (w & Hw).
  destruct (sample_window_inv _ _ _ _ _ Hw) as [Hs He].
  rewrite (getitem_run _ _ _ _ _ _ Hw).
  pose proof (pose_slice_length ps n _ _ w Hs He HF ltac:(lia) Hps) as Lps.
  pose proof (pose_slice_length qs n _ _ w Hs He HF ltac:(lia) Hqs) as Lqs.
  set (ps' := slice_z ps _ _) in *. set (qs' := slice_z qs _ _) in *.
  destruct (anchors_ok (fix_seq_length self) ps' qs') as (rows & Hrows);
    [lia | lia |].
  destruct (rows_shape _ _ _ _ Hrows) as [Hlen Hrow].
  assert (Hall : Forall (fun label => List.length label = 10%nat) rows).
  { apply Forall_forall. intros label Hin.
    apply In_nth_error in Hin. destruct Hin as (i & Hi).
    rewrite (Hrow i label Hi).
    assert (i < List.length rows)%nat
      by (apply nth_error_Some; rewrite Hi; discriminate).
    lia. }
  exists rows. unfold localize. rewrite Hrows. simpl.
  rewrite (torch_tensor_uniform 10 rows Hall). auto.
Qed.

Lemma getitem_succeeds_witness :
  (0 <= fix_seq_length (init 20))%Z /\
  (9 <= num_pts (init 20))%Z /\
  (fix_seq_length (init 20) + num_pts (init 20) < 61)%Z /\
  (61 <= Z.of_nat (List.length straight_positions))%Z /\
  (61 <= Z.of_nat (List.length straight_orientations))%Z /\
  exists labels,
    getitem (init 20) 5 true 61 straight_positions straight_orientations
      = Ok labels /\
    List.length labels = Z.to_nat (fix_seq_length (init 20)) /\
    Forall (fun label => List.length label = 10%nat) labels.
Proof.
  assert (H1 : (0 <= fix_seq_length (init 20))%Z) by (simpl; lia).
  assert (H2 : (9 <= num_pts (init 20))%Z) by (simpl; lia).
  assert (H3 : (fix_seq_length (init 20) + num_pts (init 20) < 61)%Z)
    by (simpl; lia).
  assert (H4 : (61 <= Z.of_nat (List.length straight_positions))%Z)
    by (vm_compute; discriminate).
  assert (H5 : (61 <= Z.of_nat (List.length straight_orientations))%Z)
    by (vm_compute; discriminate).
  repeat (split; [assumption|]).
  exact (getitem_succeeds (init 20) 5 61 straight_positions
                          straight_orientations H1 H2 H3 H4 H5).
Defined.

(** X6.  Fewer than nine points requested: the last anchor has fewer rows
    than the first, and stacking the labels fails. *)
Theorem getitem_ragged (self : t) (draw n : Z) (ps : list vec3)
  (qs : list quat) :
  (2 <= fix_seq_length self)%Z ->
  (0 <= num_pts self < 9)%Z ->
  (fix_seq_length self + num_pts self < n)%Z ->
  (n <= Z.of_nat (List.length ps))%Z ->
  (n <= Z.of_nat (List.length qs))%Z ->
  getitem self draw true n ps qs = Raise ValueError_ragged.
Proof.
  intros HF HN Hn Hps Hqs.
  destruct (sample_window_some draw n _ _ Hn) as (w & Hw).
  destruct (sample_window_inv _ _ _ _ _ Hw) as [Hs He].
  rewrite (getitem_run _ _ _ _ _ _ Hw).
  pose proof (pose_slice_length ps n _ _ w Hs He ltac:(lia) ltac:(lia) Hps)
    as Lps.
  pose proof (pose_slice_length qs n _ _ w Hs He ltac:(lia) ltac:(lia) Hqs)
    as Lqs.
  set (ps' := slice_z ps _ _) in *. set (qs' := slice_z qs _ _) in *.
  destruct (anchors_ok (fix_seq_length self) ps' qs') as (rows & Hrows);
    [lia | lia |].
  destruct (rows_shape _ _ _ _ Hrows) as [Hlen Hrow].
  unfold localize. rewrite Hrows. simpl.
  destruct rows as [|r0 rest]; [simpl in Hlen; lia|].
  unfold torch_tensor.
  pose proof (Hrow 0%nat r0 eq_refl) as Hr0.
  destruct (nth_error rest (Z.to_nat (fix_seq_length self) - 2))
    as [r|] eqn:Hr.
  2:{ apply nth_error_None in Hr. simpl in Hlen. lia. }
  pose proof (Hrow (S (Z.to_nat (fix_seq_length self) - 2)) r Hr) as Hrl.
  rewrite (forallb_false_in _ rest r); [reflexivity | |].
  - apply nth_error_In in Hr. exact Hr.
  - apply Nat.eqb_neq. lia.
Qed.

Lemma getitem_ragged_witness :
  (2 <= fix_seq_length (init 8))%Z /\
  (0 <= num_pts (init 8) < 9)%Z /\
  (fix_seq_length (init 8) + num_pts (init 8) < 61)%Z /\
  (61 <= Z.of_nat (List.length straight_positions))%Z /\
  (61 <= Z.of_nat (List.length straight_orientations))%Z /\
  getitem (init 8) 5 true 61 straight_positions straight_orientations
    = Raise ValueError_ragged.
Proof.
  assert (H1 : (2 <= fix_seq_length (init 8))%Z) by (simpl; lia).
  assert (H2 : (0 <= num_pts (init 8) < 9)%Z) by (simpl; lia).
  assert (H3 : (fix_seq_length (init 8) + num_pts (init 8) < 61)%Z)
    by (simpl; lia).
  assert (H4 : (61 <= Z.of_nat (List.length straight_positions))%Z)
    by (vm_compute; discriminate).
  assert (H5 : (61 <= Z.of_nat (List.length straight_orientations))%Z)
    by (vm_compute; discriminate).
  repeat (split; [assumption|]).
  exact (getitem_ragged (init 8) 5 61 straight_positions
                        straight_orientations H1 H2 H3 H4 H5).
Defined.



End Comma2k19Shapes.

Section Frames.

Import Comma2k19SequenceDataset.
Import Comma2k19Frames.

Context {Img Ten : Type}.

Lemma nth_error_frame_pairs :
  forall (l : list Ten) (t : nat),
    nth_error (frame_pairs l) t =
    match nth_error l t, nth_error l (S t) with
    | Some a, Some b => Some (a, b)
    | _, _ => None
    end.
Proof.
  unfold frame_pairs.
  induction l as [|a [|b l] IH]; intros t.
  - destruct t; reflexivity.
  - destruct t as [|[|t]]; reflexivity.
  - destruct t as [|t].
    + reflexivity.
    + change (nth_error (combine (removelast (b :: l)) (tl (b :: l))) t =
              match nth_error (b :: l) t, nth_error (b :: l) (S t) with
              | Some a0, Some b0 => Some (a0, b0)
              | _, _ => None
              end).
      apply IH.
Qed.

Lemma length_frame_pairs (l : list Ten) :
  List.length (frame_pairs l) = (List.length l - 1)%nat.
Proof.
  unfold frame_pairs. rewrite length_combine.
  destruct l as [|a l]; [reflexivity|].
  rewrite removelast_firstn_len, length_firstn. simpl. lia.
Qed.

(** X9.  Frames and window.  For a window the sampler returned on a video
    of [n] frames, the image entry has [fix_seq_length] pairs, and pair
    [t] is made of the frames [start - 1 + t] and [start + t] of the
    video: the second frame of pair [t] is the frame whose pose anchors
    label [t]. *)
Theorem seq_input_img_pairs (transforms : Img -> Ten) (imgs : list Img)
  (draw n F N start stop : Z) :
  sample_window draw n F N = Ok (start, stop) ->
  (0 <= F)%Z -> (0 <= N)%Z ->
  Z.of_nat (List.length imgs) = n ->
  exists pairs,
    seq_input_img transforms imgs start stop = Some pairs /\
    List.length pairs = Z.to_nat F /\
    forall t, (t < Z.to_nat F)%nat ->
      exists a b,
        nth_error imgs (Z.to_nat start - 1 + t) = Some a /\
        nth_error imgs (Z.to_nat start + t) = Some b /\
        nth_error pairs t = Some (transforms a, transforms b).
Proof.
  intros Hw HF HN Hlen.
  destruct (sample_window_inv _ _ _ _ _ Hw) as [Hs He]. simpl in Hs, He.
  unfold seq_input_img.
  rewrite slice_z_nonneg by lia.
  set (win := slice imgs (Z.to_nat (start - 1)) (Z.to_nat stop)).
  assert (Lwin : List.length win = S (Z.to_nat F))
    by (unfold win; rewrite length_slice; lia).
  assert (Hnth : forall j, (j <= Z.to_nat F)%nat ->
            exists a, nth_error imgs (Z.to_nat start - 1 + j) = Some a /\
                      nth_error (map transforms win) j = Some (transforms a)).
  { intros j Hj.
    destruct (nth_error win j) as [a|] eqn:Ha.
    2:{ apply nth_error_None in Ha. lia. }
    exists a. split.
    - unfold win in Ha. rewrite nth_error_slice in Ha.
      destruct (_ <? _)%nat; [|discriminate].
      rewrite <- Ha. f_equal. lia.
    - rewrite nth_error_map, Ha. reflexivity. }
  destruct (map transforms win) as [|x xs] eqn:Hmap.
  { apply (f_equal (@List.length Ten)) in Hmap.
    rewrite length_map, Lwin in Hmap. discriminate. }
  rewrite <- Hmap in *. eexists. split; [reflexivity|]. split.
  - rewrite length_frame_pairs, length_map, Lwin. lia.
  - intros t Ht.
    destruct (Hnth t ltac:(lia)) as (a & Ha & Hta).
    destruct (Hnth (S t) ltac:(lia)) as (b & Hb & Htb).
    exists a, b. split; [exact Ha|]. split.
    + rewrite <- Hb. f_equal. lia.
    + rewrite nth_error_frame_pairs, Hta, Htb. reflexivity.
Qed.

End Frames.

Lemma seq_input_img_pairs_witness :
  Comma2k19SequenceDataset.sample_window 0 12 3 2 = Ok (1, 4)%Z /\
  (0 <= 3)%Z /\ (0 <= 2)%Z /\
  Z.of_nat (List.length (seq 0 12)) = 12%Z /\
  exists pairs,
    Comma2k19Frames.seq_input_img (fun i : nat => i) (seq 0 12) 1 4
      = Some pairs /\
    List.length pairs = Z.to_nat 3 /\
    forall t, (t < Z.to_nat 3)%nat ->
      exists a b,
        nth_error (seq 0 12) (Z.to_nat 1 - 1 + t) = Some a /\
        nth_error (seq 0 12) (Z.to_nat 1 + t) = Some b /\
        nth_error pairs t = Some (a, b).
Proof.
  assert (H1 : Comma2k19SequenceDataset.sample_window 0 12 3 2
               = Ok (1, 4)%Z) by reflexivity.
  assert (H4 : Z.of_nat (List.length (seq 0 12)) = 12%Z) by reflexivity.
  split; [exact H1|]. split; [lia|]. split; [lia|]. split; [exact H4|].
  apply (seq_input_img_pairs (fun i : nat => i) (seq 0 12) 0 12 3 2 1 4 H1);
    [lia | lia | exact H4].
Defined.

(** ** Lengths and the identity orientation *)

Section LabelGeometry.

Import Comma2k19SequenceDataset.
Import Examples.
Import Geometry.
Open Scope R_scope.

Lemma rot_from_quat_identity :
  orient.rot_from_quat q_identity = identity.
Proof.
  unfold orient.rot_from_quat, q_identity, identity; simpl. f_equal; ring.
Qed.

Lemma vnorm2_transpose_rot (q : quat) (d : vec3) :
  vnorm2 (mat_vec (transpose (orient.rot_from_quat q)) d)
  = qnorm2 q * qnorm2 q * vnorm2 d.
Proof.
  unfold vnorm2, mat_vec, transpose, orient.rot_from_quat, qnorm2; simpl.
  ring.
Qed.

Lemma label_row_parts (F : Z) (ps : list vec3) (qs : list quat)
  (labels : list (list vec3)) (i k : nat) (label : list vec3) (v : vec3)
  (q : quat) :
  localize F ps qs = Ok labels ->
  nth_error labels i = Some label ->
  nth_error label k = Some v ->
  nth_error qs i = Some q ->
  exists p_i p_ik,
    nth_error ps i = Some p_i /\
    nth_error ps (i + k) = Some p_ik /\
    v = mat_vec (transpose (orient.rot_from_quat q)) (vsub p_ik p_i).
Proof.
  intros Hloc Hlab Hrow Hq.
  destruct (localize_label _ _ _ _ _ _ Hloc Hlab) as [Hlt _].
  apply local_trajectory_ok in Hlt.
  destruct Hlt as (q' & p_i & Hq' & Hp & ->).
  rewrite Hq in Hq'. injection Hq' as <-.
  rewrite nth_error_slice in Hrow.
  destruct (k <? i + 10 - i)%nat; [|discriminate].
  rewrite nth_error_map in Hrow.
  destruct (nth_error ps (i + k)) as [p_ik|] eqn:Hpik; [|discriminate].
  simpl in Hrow. injection Hrow as <-.
  exists p_i, p_ik. auto.
Qed.

(** X10.  With the identity quaternion at the anchor, the label rows are the
    plain differences of positions. *)
Theorem localize_identity_orientation (F : Z) (ps : list vec3)
  (qs : list quat) (labels : list (list vec3)) (i k : nat)
  (label : list vec3) (v : vec3) :
  localize F ps qs = Ok labels ->
  nth_error labels i = Some label ->
  nth_error label k = Some v ->
  nth_error qs i = Some q_identity ->
  exists p_i p_ik,
    nth_error ps i = Some p_i /\
    nth_error ps (i + k) = Some p_ik /\
    v = vsub p_ik p_i.
Proof.
  intros Hloc Hlab Hrow Hq.
  destruct (label_row_parts _ _ _ _ _ _ _ _ _ Hloc Hlab Hrow Hq)
    as (p_i & p_ik & Hp & Hpik & ->).
  exists p_i, p_ik. split; [exact Hp|]. split; [exact Hpik|].
  rewrite rot_from_quat_identity.
  change (transpose identity) with identity.
  apply mat_vec_identity.
Qed.

Lemma localize_identity_orientation_witness :
  exists labels label v,
    localize 1 three_positions three_orientations = Ok labels /\
    nth_error labels 0 = Some label /\
    nth_error label 2 = Some v /\
    nth_error three_orientations 0 = Some q_identity /\
    exists p_i p_ik,
      nth_error three_positions 0 = Some p_i /\
      nth_error three_positions (0 + 2) = Some p_ik /\
      v = vsub p_ik p_i.
Proof.
  eexists. eexists. eexists.
  split; [reflexivity|]. split; [reflexivity|]. split; [reflexivity|].
  split; [reflexivity|].
  eapply (localize_identity_orientation 1 three_positions three_orientations
            _ 0 2); reflexivity.
Defined.

(** X11.  The length of a label row is the distance between the two poses
    times the squared norm of the anchor's quaternion: distances are
    kept for unit quaternions, and nothing normalises the others. *)
Theorem label_row_length (F : Z) (ps : list vec3) (qs : list quat)
  (labels : list (list vec3)) (i k : nat) (label : list vec3) (v : vec3)
  (q : quat) :
  localize F ps qs = Ok labels ->
  nth_error labels i = Some label ->
  nth_error label k = Some v ->
  nth_error qs i = Some q ->
  exists p_i p_ik,
    nth_error ps i = Some p_i /\
    nth_error ps (i + k) = Some p_ik /\
    vnorm2 v = qnorm2 q * qnorm2 q * vnorm2 (vsub p_ik p_i).
Proof.
  intros Hloc Hlab Hrow Hq.
  destruct (label_row_parts _ _ _ _ _ _ _ _ _ Hloc Hlab Hrow Hq)
    as (p_i & p_ik & Hp & Hpik & ->).
  exists p_i, p_ik. split; [exact Hp|]. split; [exact Hpik|].
  apply vnorm2_transpose_rot.
Qed.

Lemma label_row_length_witness :
  exists labels label v,
    localize 1 two_positions two_orientations = Ok labels /\
    nth_error labels 0 = Some label /\
    nth_error label 1 = Some v /\
    nth_error two_orientations 0 = Some q_third_turn /\
    exists p_i p_ik,
      nth_error two_positions 0 = Some p_i /\
      nth_error two_positions (0 + 1) = Some p_ik /\
      vnorm2 v
      = qnorm2 q_third_turn * qnorm2 q_third_turn * vnorm2 (vsub p_ik p_i).
Proof.
  eexists. eexists. eexists.
  split; [reflexivity|]. split; [reflexivity|]. split; [reflexivity|].
  split; [reflexivity|].
  eapply (label_row_length 1 two_positions two_orientations _ 0 1);
    reflexivity.
Defined.

End LabelGeometry.

(** ** The single-frame dataset, row by row *)

Section PlanningRows.

Import PlanningDataset.
Import Examples.
Open Scope R_scope.





End PlanningRows.

(** ** The sequence dataset of nuScenes *)

Section SequencePlanning.

Import SequencePlanningDataset.
Open Scope Z_scope.

(** A slice with bounds inside the list is a run of the list. *)
Lemma slice_z_run {A : Type} (a : list A) (i len : Z) :
  0 <= i -> 0 <= len -> i + len <= Z.of_nat (List.length a) ->
  List.length (slice_z a i (len + i)) = Z.to_nat len /\
  exists pre post, a = pre ++ slice_z a i (len + i) ++ post.
Proof.
  intros Hi Hlen Hfit. unfold slice_z.
  rewrite !clip_index_nonneg by lia. split.
  - rewrite length_slice. lia.
  - unfold slice.
    exists (firstn (Nat.min (Z.to_nat i) (List.length a)) a).
    eexists. rewrite firstn_skipn. rewrite firstn_skipn. reflexivity.
Qed.

Lemma select_returned (self : t) (draws : nat -> Z) :
  0 <= fix_seq_length self ->
  forall (depth k idx : nat) (window : list sample),
    select depth self draws k idx = Returned window ->
    List.length window = Z.to_nat (fix_seq_length self) /\
    exists idx' seq pre post,
      nth_error (samples self) idx' = Some seq /\
      seq = pre ++ window ++ post.
Proof.
  intros Hfix. induction depth as [|depth IH]; intros k idx window Hsel;
    simpl in Hsel; [discriminate|].
  unfold index in Hsel.
  destruct (nth_error (samples self) idx) as [seq|] eqn:Hseq; [|discriminate].
  destruct (Z.ltb_spec (Z.of_nat (List.length seq)) (fix_seq_length self)).
  - destruct (randint _ _ _) as [idx'|e]; [|discriminate].
    apply (IH _ _ _ Hsel).
  - destruct (Z.ltb_spec (fix_seq_length self) (Z.of_nat (List.length seq))).
    + destruct (randint (draws k) 0 _) as [delta|e] eqn:Hr; [|discriminate].
      injection Hsel as <-. apply randint_range in Hr.
      destruct (slice_z_run seq delta (fix_seq_length self))
        as [Hl (pre & post & Hrun)]; try lia.
      split; [exact Hl|]. exists idx, seq, pre, post. auto.
    + injection Hsel as <-. split; [lia|].
      exists idx, seq, [], []. rewrite app_nil_r. auto.
Qed.

(** X14.  What [__getitem__] returns is the stored labels of
    [fix_seq_length] consecutive samples of one stored sequence, as
    they are stored: in particular the forward coordinate is not
    clamped here. *)
Theorem sequence_getitem_returned (self : t) (draws : nat -> Z)
  (depth idx : nat) (poses : list (list vec3)) :
  0 <= fix_seq_length self ->
  getitem depth self draws idx = Returned poses ->
  exists idx' seq pre window post,
    nth_error (samples self) idx' = Some seq /\
    seq = pre ++ window ++ post /\
    List.length window = Z.to_nat (fix_seq_length self) /\
    poses = map future_poses window.
Proof.
  intros Hfix. unfold getitem.
  destruct (select depth self draws 0 idx) as [window| | |] eqn:Hsel;
    try discriminate.
  intros Hbuild.
  destruct (select_returned self draws Hfix _ _ _ _ Hsel)
    as [Hl (idx' & seq & pre & post & Hseq & Hrun)].
  exists idx', seq, pre, window, post.
  repeat (split; [assumption|]).
  unfold build in Hbuild.
  destruct (existsb _ _); [discriminate|].
  destruct (map imgs window); [discriminate|].
  destruct (Comma2k19SequenceDataset.torch_tensor _) as [x|e] eqn:Ht;
    [|discriminate].
  injection Hbuild as <-. apply torch_tensor_ok in Ht. exact Ht.
Qed.

(** X15.  A sequence that is long enough is served at once, without a retry;
    a sequence of exactly [fix_seq_length] samples is its own window. *)
Theorem select_long_enough (self : t) (draws : nat -> Z) (depth k idx : nat)
  (seq : list sample) :
  nth_error (samples self) idx = Some seq ->
  fix_seq_length self <= Z.of_nat (List.length seq) ->
  exists window,
    select (S depth) self draws k idx = Returned window /\
    (Z.of_nat (List.length seq) = fix_seq_length self -> window = seq).
Proof.
  intros Hseq Hlen. simpl. unfold index. rewrite Hseq.
  destruct (Z.ltb_spec (Z.of_nat (List.length seq)) (fix_seq_length self));
    [lia|].
  destruct (Z.ltb_spec (fix_seq_length self) (Z.of_nat (List.length seq))).
  - destruct (randint_ok (draws k) 0
                (Z.of_nat (List.length seq) - fix_seq_length self + 1))
      as (delta & ->); [lia|].
    eexists. split; [reflexivity|]. lia.
  - eexists. split; [reflexivity|]. reflexivity.
Qed.

(** X16.  When every stored sequence is too short, a call never returns a
    sample: each retry lands on another short sequence until the
    recursion depth is used up. *)
Theorem sequence_getitem_all_short (self : t) (draws : nat -> Z)
  (depth idx : nat) :
  (forall seq, In seq (samples self) ->
     Z.of_nat (List.length seq) < fix_seq_length self) ->
  (idx < List.length (samples self))%nat ->
  getitem depth self draws idx = RecursionLimit.
Proof.
  intros Hshort Hidx. unfold getitem.
  assert (Hsel : forall depth k idx,
            (idx < List.length (samples self))%nat ->
            select depth self draws k idx = RecursionLimit).
  { clear depth idx Hidx.
    induction depth as [|depth IH]; intros k idx Hidx; [reflexivity|].
    simpl. unfold index.
    destruct (nth_error (samples self) idx) as [seq|] eqn:Hseq.
    2:{ apply nth_error_None in Hseq. lia. }
    apply nth_error_In in Hseq. specialize (Hshort seq Hseq).
    destruct (Z.ltb_spec (Z.of_nat (List.length seq)) (fix_seq_length self));
      [|lia].
    destruct (randint (draws k) 0 (Z.of_nat (List.length (samples self))))
      as [idx'|e] eqn:Hr.
    - apply randint_range in Hr. apply IH. lia.
    - unfold randint in Hr.
      destruct (Z.ltb_spec 0 (Z.of_nat (List.length (samples self))));
        [discriminate | lia]. }
  rewrite (Hsel depth 0%nat idx Hidx). reflexivity.
Qed.

End SequencePlanning.

Section SequencePlanningExamples.

Import SequencePlanningDataset.
Import SequenceExamples.
Open Scope Z_scope.

Lemma sequence_getitem_returned_witness :
  exists poses,
    0 <= fix_seq_length (init [long_sequence]) /\
    getitem 1 (init [long_sequence]) (fun _ => 1) 0 = Returned poses /\
    exists idx' seq pre window post,
      nth_error (samples (init [long_sequence])) idx' = Some seq /\
      seq = pre ++ window ++ post /\
      List.length window = Z.to_nat (fix_seq_length (init [long_sequence])) /\
      poses = map future_poses window.
Proof.
  eexists.
  assert (H1 : 0 <= fix_seq_length (init [long_sequence])) by (simpl; lia).
  split; [exact H1|].
  split; [vm_compute; reflexivity|].
  apply (sequence_getitem_returned (init [long_sequence]) (fun _ => 1)
                                   1 0 _ H1).
  vm_compute. reflexivity.
Defined.

Lemma select_long_enough_witness :
  nth_error (samples (init [short_sequence; long_sequence])) 1
    = Some long_sequence /\
  fix_seq_length (init [short_sequence; long_sequence])
    <= Z.of_nat (List.length long_sequence) /\
  exists window,
    select 1 (init [short_sequence; long_sequence]) (fun _ => 2) 0 1
      = Returned window /\
    (Z.of_nat (List.length long_sequence)
       = fix_seq_length (init [short_sequence; long_sequence]) ->
     window = long_sequence).
Proof.
  assert (H1 : nth_error (samples (init [short_sequence; long_sequence])) 1
               = Some long_sequence) by reflexivity.
  assert (H2 : fix_seq_length (init [short_sequence; long_sequence])
               <= Z.of_nat (List.length long_sequence))
    by (vm_compute; discriminate).
  split; [exact H1|]. split; [exact H2|].
  exact (select_long_enough (init [short_sequence; long_sequence])
                            (fun _ => 2) 0 0 1 long_sequence H1 H2).
Defined.

Lemma sequence_getitem_all_short_witness :
  (forall seq, In seq (samples (init [short_sequence])) ->
     Z.of_nat (List.length seq) < fix_seq_length (init [short_sequence])) /\
  (0 < List.length (samples (init [short_sequence])))%nat /\
  getitem 1000 (init [short_sequence]) (fun _ => 0) 0 = RecursionLimit.
Proof.
  assert (H1 : forall seq, In seq (samples (init [short_sequence])) ->
            Z.of_nat (List.length seq)
            < fix_seq_length (init [short_sequence])).
  { intros seq [<-|[]]. vm_compute. reflexivity. }
  assert (H2 : (0 < List.length (samples (init [short_sequence])))%nat)
    by (simpl; lia).
  split; [exact H1|]. split; [exact H2|].
  exact (sequence_getitem_all_short (init [short_sequence]) (fun _ => 0)
                                    1000 0 H1 H2).
Defined.

End SequencePlanningExamples.

(** * Further properties of the training driver *)

Section CensusFacts.

Import Train.
Import Census.
Open Scope Z_scope.

Lemma count_app (k : kind) (a b : list event) :
  count k (a ++ b) = count k a + count k b.
Proof. unfold count. rewrite filter_app, length_app. lia. Qed.

Lemma count_step_events (k : kind) (rank n : Z) (t : nat) :
  count k (step_events rank n t) = step_kind rank k.
Proof.
  unfold step_kind, step_events.
  destruct (rank =? 0); destruct k; reflexivity.
Qed.

Lemma count_update_events (k : kind) (total : fval) :
  count k (update_events total) = update_kind k.
Proof. destruct k; reflexivity. Qed.

Lemma count_boundary (k : kind) (total : fval) :
  count k (Detach :: update_events total) = boundary_kind k.
Proof. destruct k; reflexivity. Qed.

Lemma optimizer_steps_count (tr : list event) :
  optimizer_steps tr = count KOptimizerStep tr.
Proof.
  unfold optimizer_steps, count. do 2 f_equal.
  apply filter_ext. intros e. destruct e; reflexivity.
Qed.

Lemma sum_Z_app (a b : list Z) : sum_Z (a ++ b) = sum_Z a + sum_Z b.
Proof. induction a as [|x a IH]; simpl; lia. Qed.

Lemma sum_Z_map_ext {A : Type} (f g : A -> Z) (l : list A) :
  (forall x, In x l -> f x = g x) -> sum_Z (map f l) = sum_Z (map g l).
Proof.
  intros H. induction l as [|x l IH]; simpl; [reflexivity|].
  rewrite (H x (or_introl eq_refl)), IH; [reflexivity|].
  intros y Hy. apply H. right. exact Hy.
Qed.

Lemma sum_Z_map_scale {A : Type} (c : Z) (f : A -> Z) (l : list A) :
  sum_Z (map (fun x => c * f x) l) = c * sum_Z (map f l).
Proof. induction l as [|x l IH]; simpl; lia. Qed.

Lemma sum_Z_map_zero {A : Type} (l : list A) :
  sum_Z (map (fun _ => 0) l) = 0.
Proof. induction l as [|x l IH]; simpl; lia. Qed.

(** The loop over the steps, with every kind of call counted. *)
Lemma window_loop_census (rank T : Z) :
  0 < T ->
  forall (data : window) (t : nat) (s : state),
    (isinstance_int (total_loss s) = true <-> Z.of_nat t mod T = 0) ->
    exists s' evs,
      for_each (enumerate_from t data) (train_step rank T) s = (Normal, s') /\
      trace s' = trace s ++ evs /\
      num_steps s' = num_steps s + window_length data /\
      (isinstance_int (total_loss s') = true
       <-> (Z.of_nat t + window_length data) mod T = 0) /\
      forall k,
        count k evs
        = window_length data * step_kind rank k
          + ((Z.of_nat t + window_length data) / T - Z.of_nat t / T)
            * boundary_kind k.
Proof.
  intros HT. unfold window_length.
  induction data as [|l rest IH]; intros t s Hinv.
  - exists s, []. simpl. rewrite app_nil_r, !Z.add_0_r.
    repeat split; try tauto. intros k. change (count k []) with 0. lia.
  - simpl for_each. rewrite train_step_run by lia. cbv zeta.
    replace (Z.of_nat (List.length (l :: rest)))
      with (1 + Z.of_nat (List.length rest)) by (simpl List.length; lia).
    replace (Z.of_nat t + (1 + Z.of_nat (List.length rest)))
      with (Z.of_nat (S t) + Z.of_nat (List.length rest)) by lia.
    pose proof (div_succ (Z.of_nat t) T HT) as Hdiv.
    replace (Z.of_nat t + 1) with (Z.of_nat (S t)) in * by lia.
    destruct (Z.eqb_spec (Z.of_nat (S t) mod T) 0) as [H0|H0].
    + match goal with |- context [for_each _ _ ?s0] =>
        destruct (IH (S t) s0)
          as (s' & evs & Hrun & Htr & Hn & Hinv' & Hcnt)
      end.
      { simpl. tauto. }
      cbn [trace num_steps] in Htr, Hn.
      exists s'.
      exists ((step_events rank (num_steps s + 1) t
               ++ Detach :: update_events
                    (total_add_val (total_loss s) (fdiv_int l T))) ++ evs).
      split; [exact Hrun|].
      split; [rewrite Htr; symmetry; apply app_assoc|].
      split; [lia|]. split; [exact Hinv'|].
      intros k.
      rewrite !count_app, count_step_events, count_boundary, Hcnt, Hdiv.
      ring.
    + match goal with |- context [for_each _ _ ?s0] =>
        destruct (IH (S t) s0)
          as (s' & evs & Hrun & Htr & Hn & Hinv' & Hcnt)
      end.
      { simpl. split; [discriminate | intros; contradiction]. }
      cbn [trace num_steps] in Htr, Hn.
      exists s'.
      exists (step_events rank (num_steps s + 1) t ++ evs).
      split; [exact Hrun|].
      split; [rewrite Htr; symmetry; apply app_assoc|].
      split; [lia|]. split; [exact Hinv'|].
      intros k.
      rewrite !count_app, count_step_events, Hcnt, Hdiv.
      ring.
Qed.

Lemma effect_train_window (rank T : Z) (data : window) :
  0 < T ->
  effect (train_window rank T data) Normal (window_length data)
         (fun k => window_census rank T k (window_length data)).
Proof.
  intros HT s. rewrite train_window_run.
  match goal with |- context [for_each _ _ ?s0] =>
    destruct (window_loop_census rank T HT data 0 s0)
      as (s1 & evs & Hrun & Htr & Hn & Hinv & Hcnt)
  end.
  { simpl. rewrite Z.mod_0_l by lia. tauto. }
  rewrite Hrun. cbn [trace num_steps] in Htr, Hn.
  change (Z.of_nat 0) with 0 in Hcnt, Hinv.
  rewrite Z.add_0_l in Hinv.
  assert (Hcnt' : forall k, count k evs
            = window_length data * step_kind rank k
              + (window_length data / T) * boundary_kind k).
  { intros k. rewrite Hcnt, Z.add_0_l, Z.div_0_l by lia. ring. }
  unfold window_census.
  destruct (total_loss s1) as [n1|l] eqn:Htot; simpl in Hinv.
  - assert (H0 : window_length data mod T = 0) by tauto.
    rewrite H0. simpl.
    exists s1, ([ZerosHidden] ++ evs).
    split; [reflexivity|].
    split; [rewrite Htr; symmetry; apply app_assoc|].
    split; [exact Hn|].
    intros k. rewrite count_app, Hcnt'. ring.
  - destruct (Z.eqb_spec (window_length data mod T) 0) as [H0|H0].
    { apply Hinv in H0. discriminate. }
    eexists. exists (([ZerosHidden] ++ evs) ++ update_events l).
    split; [reflexivity|].
    split; [cbn [trace]; rewrite Htr, <- !app_assoc; reflexivity|].
    split; [exact Hn|].
    intros k. rewrite !count_app, Hcnt', count_update_events. ring.
Qed.

Lemma effect_emit (e : event) :
  effect (emit e) Normal 0 (fun k => count k [e]).
Proof.
  intros s. eexists. exists [e].
  split; [reflexivity|]. cbn [trace num_steps].
  split; [reflexivity|]. split; [lia|]. reflexivity.
Qed.

Lemma effect_skip : effect skip Normal 0 (fun _ => 0).
Proof.
  intros s. exists s, [].
  split; [reflexivity|]. split; [symmetry; apply app_nil_r|].
  split; [lia|]. reflexivity.
Qed.

Lemma effect_continue : effect continue Continue 0 (fun _ => 0).
Proof.
  intros s. exists s, [].
  split; [reflexivity|]. split; [symmetry; apply app_nil_r|].
  split; [lia|]. reflexivity.
Qed.

Lemma effect_then (a b : stmt) (sig : signal) (da db : Z)
  (ca cb : kind -> Z) :
  effect a Normal da ca -> effect b sig db cb ->
  effect (a >> b) sig (da + db) (fun k => ca k + cb k).
Proof.
  intros Ha Hb s. unfold then_.
  destruct (Ha s) as (s1 & e1 & Hr1 & Ht1 & Hn1 & Hc1). rewrite Hr1.
  destruct (Hb s1) as (s2 & e2 & Hr2 & Ht2 & Hn2 & Hc2).
  exists s2, (e1 ++ e2).
  split; [exact Hr2|].
  split; [rewrite Ht2, Ht1; symmetry; apply app_assoc|].
  split; [lia|].
  intros k. rewrite count_app, Hc1, Hc2. reflexivity.
Qed.

Lemma effect_then_continue (a b : stmt) (d : Z) (c : kind -> Z) :
  effect a Continue d c -> effect (a >> b) Continue d c.
Proof.
  intros Ha s. unfold then_.
  destruct (Ha s) as (s1 & e1 & Hr1 & Ht1 & Hn1 & Hc1). rewrite Hr1.
  exists s1, e1. auto.
Qed.

Lemma effect_ext (c : stmt) (sig : signal) (d d' : Z) (cen cen' : kind -> Z) :
  effect c sig d cen -> d = d' -> (forall k, cen k = cen' k) ->
  effect c sig d' cen'.
Proof.
  intros H -> Hcen s.
  destruct (H s) as (s1 & e1 & Hr1 & Ht1 & Hn1 & Hc1).
  exists s1, e1. repeat split; auto.
  intros k. rewrite Hc1. apply Hcen.
Qed.

Lemma effect_for_each {A : Type} (body : A -> stmt) (sig : A -> signal)
  (dn : A -> Z) (cen : A -> kind -> Z) (xs : list A) :
  (forall x, sig x = Normal \/ sig x = Continue) ->
  (forall x, effect (body x) (sig x) (dn x) (cen x)) ->
  effect (for_each xs body) Normal (sum_Z (map dn xs))
         (fun k => sum_Z (map (fun x => cen x k) xs)).
Proof.
  intros Hsig Hbody. induction xs as [|x rest IH]; intros s.
  - exists s, [].
    split; [reflexivity|]. split; [symmetry; apply app_nil_r|].
    split; [simpl; lia|]. reflexivity.
  - simpl for_each.
    destruct (Hbody x s) as (s1 & e1 & Hr1 & Ht1 & Hn1 & Hc1). rewrite Hr1.
    destruct (IH s1) as (s2 & e2 & Hr2 & Ht2 & Hn2 & Hc2).
    exists s2, (e1 ++ e2).
    split; [destruct (Hsig x) as [->| ->]; exact Hr2|].
    split; [rewrite Ht2, Ht1; symmetry; apply app_assoc|].
    split; [simpl; lia|].
    intros k. rewrite count_app, Hc1, Hc2. reflexivity.
Qed.

Lemma effect_epoch_body (rank : Z) (model : SequenceBaselineV1)
  (train_dataloader : nat -> list window) (val_dataloader : list unit)
  (epoch : nat) :
  0 < optimize_per_n_step model ->
  effect (epoch_body rank model train_dataloader val_dataloader epoch)
         (epoch_signal epoch)
         (sum_Z (map window_length (train_dataloader epoch)))
         (fun k => epoch_census rank (optimize_per_n_step model)
                                train_dataloader k epoch).
Proof.
  intros HT. unfold epoch_body, epoch_signal, epoch_census.
  assert (Hwin : effect
            (for_each (train_dataloader epoch)
                      (train_window rank (optimize_per_n_step model)))
            Normal
            (sum_Z (map window_length (train_dataloader epoch)))
            (fun k => sum_Z (map (fun w => window_census rank
                                     (optimize_per_n_step model) k
                                     (window_length w))
                                 (train_dataloader epoch)))).
  { apply (effect_for_each _ (fun _ => Normal) window_length
             (fun w k => window_census rank (optimize_per_n_step model) k
                                       (window_length w))).
    - auto.
    - intros w. apply effect_train_window. exact HT. }
  destruct (_ =? 0).
  - eapply effect_ext.
    + apply effect_then; [apply effect_emit|].
      apply effect_then; [exact Hwin|].
      apply effect_then; [apply effect_emit|].
      apply effect_then_continue. apply effect_continue.
    + lia.
    + intros k. cbv beta. lia.
  - eapply effect_ext.
    + apply effect_then; [apply effect_emit|].
      apply effect_then; [exact Hwin|].
      apply effect_skip.
    + lia.
    + intros k. cbv beta. lia.
Qed.

(** A run of [main] with a positive truncation length, from any state:
    it falls through, the calls it adds start with [Setup] and end with
    [Cleanup], the step counter ends at the number of time steps, and
    the calls of each kind are those of [main_census]. *)
Lemma main_run (rank : Z) (model : SequenceBaselineV1) (epochs : Z)
  (train_dataloader : nat -> list window) (val_dataloader : list unit)
  (s : state) :
  0 < optimize_per_n_step model ->
  exists s' mid,
    main rank model epochs train_dataloader val_dataloader s = (Normal, s') /\
    trace s' = trace s ++ Setup :: mid ++ [Cleanup] /\
    num_steps s' = total_steps epochs train_dataloader /\
    forall k,
      count k (Setup :: mid ++ [Cleanup])
      = main_census rank (optimize_per_n_step model) epochs
                    train_dataloader k.
Proof.
  intros HT.
  assert (Hloop : effect
            (for_each (range epochs)
                      (epoch_body rank model train_dataloader val_dataloader))
            Normal
            (total_steps epochs train_dataloader)
            (fun k => sum_Z (map (epoch_census rank (optimize_per_n_step model)
                                               train_dataloader k)
                                 (range epochs)))).
  { apply (effect_for_each _ epoch_signal
             (fun epoch => sum_Z (map window_length (train_dataloader epoch)))
             (fun epoch k => epoch_census rank (optimize_per_n_step model)
                                          train_dataloader k epoch)).
    - intros epoch. unfold epoch_signal. destruct (_ =? 0); auto.
    - intros epoch. apply effect_epoch_body. exact HT. }
  assert (Hw : effect (if rank =? 0 then emit NewSummaryWriter else skip)
                      Normal 0
                      (fun k => if rank =? 0 then count k [NewSummaryWriter]
                                else 0)).
  { destruct (rank =? 0); [apply effect_emit | apply effect_skip]. }
  unfold main, then_ at 1 2 3 4. simpl.
  match goal with |- context [(if rank =? 0 then _ else _) ?s0] =>
    destruct (Hw s0) as (s1 & e1 & Hr1 & Ht1 & Hn1 & Hc1)
  end.
  rewrite Hr1. simpl.
  match goal with |- context [for_each _ _ ?s0] =>
    destruct (Hloop s0) as (s2 & e2 & Hr2 & Ht2 & Hn2 & Hc2)
  end.
  rewrite Hr2. cbn [trace num_steps] in *.
  eexists. exists (e1 ++ e2).
  split; [reflexivity|].
  split.
  { cbn [trace]. rewrite Ht2, Ht1, <- !app_assoc. reflexivity. }
  split; [cbn [num_steps]; lia|].
  intros k. unfold main_census.
  change (Setup :: (e1 ++ e2) ++ [Cleanup])
    with ([Setup] ++ (e1 ++ e2) ++ [Cleanup]).
  rewrite !count_app, Hc1, Hc2. ring.
Qed.

End CensusFacts.

Section MainCensus.

Import Train.
Import Census.
Open Scope Z_scope.

Variables (rank : Z) (model : SequenceBaselineV1) (epochs : Z).
Variables (train_dataloader : nat -> list window) (val_dataloader : list unit).

Let T := optimize_per_n_step model.
Let final := snd (main rank model epochs train_dataloader val_dataloader
                       init_state).

Lemma main_final :
  0 < T ->
  exists mid,
    main rank model epochs train_dataloader val_dataloader init_state
      = (Normal, final) /\
    trace final = Setup :: mid ++ [Cleanup] /\
    num_steps final = total_steps epochs train_dataloader /\
    forall k, count k (trace final)
              = main_census rank T epochs train_dataloader k.
Proof.
  intros HT. unfold final.
  destruct (main_run rank model epochs train_dataloader val_dataloader
                     init_state HT) as (s' & mid & Hrun & Htr & Hn & Hc).
  rewrite Hrun. simpl snd. simpl in Htr. exists mid.
  split; [reflexivity|]. split; [exact Htr|]. split; [exact Hn|].
  intros k. rewrite Htr. apply Hc.
Qed.

Lemma step_kind_value (k : kind) :
  step_kind rank k =
  match k with
  | KModelForward | KLossEval => 1
  | KAddScalar => if rank =? 0 then 5 else 0
  | _ => 0
  end.
Proof.
  unfold step_kind, step_events.
  destruct (rank =? 0); destruct k; reflexivity.
Qed.

Lemma window_census_update (k : kind) (n : Z) :
  0 < T -> is_update_kind k = true ->
  window_census rank T k n = ceil_div n T.
Proof.
  intros HT Hk. rewrite (ceil_div_floor n T HT).
  unfold window_census. rewrite step_kind_value.
  destruct k; try discriminate;
    unfold boundary_kind, update_kind;
    match goal with
    | |- context [count ?k' [ZerosHidden]] =>
        change (count k' [ZerosHidden]) with 0
    end;
    match goal with
    | |- context [count ?k' (Detach :: update_events NonFinite)] =>
        change (count k' (Detach :: update_events NonFinite)) with 1
    end;
    match goal with
    | |- context [count ?k' (update_events NonFinite)] =>
        change (count k' (update_events NonFinite)) with 1
    end; lia.
Qed.

Lemma main_census_update (k : kind) :
  0 < T -> is_update_kind k = true ->
  main_census rank T epochs train_dataloader k
  = sum_Z (map (fun epoch =>
                  sum_Z (map (fun w => ceil_div (window_length w) T)
                             (train_dataloader epoch)))
               (range epochs)).
Proof.
  intros HT Hk. unfold main_census, epoch_census.
  assert (H1 : count k [Setup] = 0) by (destruct k; try discriminate; reflexivity).
  assert (H2 : count k [NewSummaryWriter] = 0)
    by (destruct k; try discriminate; reflexivity).
  assert (H3 : count k [Cleanup] = 0)
    by (destruct k; try discriminate; reflexivity).
  assert (H4 : count k [PyPrint "skipping val..."] = 0)
    by (destruct k; try discriminate; reflexivity).
  assert (H5 : forall e, count k [SetEpoch e] = 0)
    by (intros e; destruct k; try discriminate; reflexivity).
  rewrite H1, H2, H3, H4.
  replace (if rank =? 0 then 0 else 0) with 0 by (destruct (rank =? 0); reflexivity).
  rewrite !Z.add_0_l, Z.add_0_r.
  apply sum_Z_map_ext. intros e _. rewrite H5.
  replace (if (Z.of_nat e + 1) mod 10 =? 0 then 0 else 0) with 0
    by (destruct (_ =? 0); reflexivity).
  rewrite Z.add_0_l, Z.add_0_r.
  apply sum_Z_map_ext. intros w _.
  apply window_census_update; assumption.
Qed.

Lemma count_single (k : kind) (e : event) :
  count k [e] = if kind_eqb (kind_of e) k then 1 else 0.
Proof. unfold count. simpl. destruct (kind_eqb _ _); reflexivity. Qed.

Lemma boundary_kind_value (k : kind) :
  boundary_kind k =
  match k with
  | KDetach | KZeroGrad | KBackward | KOptimizerStep | KLrSchedulerStep => 1
  | _ => 0
  end.
Proof. destruct k; reflexivity. Qed.

Lemma update_kind_value (k : kind) :
  update_kind k =
  match k with
  | KZeroGrad | KBackward | KOptimizerStep | KLrSchedulerStep => 1
  | _ => 0
  end.
Proof. destruct k; reflexivity. Qed.

(** What is left of the census for a kind of call that only occurs
    inside the windows, [per_step] times per time step. *)
Lemma main_census_per_step (k : kind) (per_step : Z) :
  count k [Setup] = 0 -> count k [NewSummaryWriter] = 0 ->
  count k [Cleanup] = 0 -> count k [PyPrint "skipping val..."] = 0 ->
  (forall e, count k [SetEpoch e] = 0) ->
  (forall n, window_census rank T k n = per_step * n) ->
  main_census rank T epochs train_dataloader k
  = per_step * total_steps epochs train_dataloader.
Proof.
  intros H1 H2 H3 H4 H5 H6. unfold main_census, epoch_census, total_steps.
  rewrite H1, H2, H3, H4.
  replace (if rank =? 0 then 0 else 0) with 0
    by (destruct (rank =? 0); reflexivity).
  rewrite !Z.add_0_l, Z.add_0_r, <- sum_Z_map_scale.
  apply sum_Z_map_ext. intros e _. rewrite H5.
  replace (if (Z.of_nat e + 1) mod 10 =? 0 then 0 else 0) with 0
    by (destruct (_ =? 0); reflexivity).
  rewrite Z.add_0_l, Z.add_0_r, <- sum_Z_map_scale.
  apply sum_Z_map_ext. intros w _. apply H6.
Qed.

Lemma skip_count (n : nat) :
  sum_Z (map (fun e => if (Z.of_nat e + 1) mod 10 =? 0 then 1 else 0)
             (seq 0 n))
  = Z.of_nat n / 10.
Proof.
  induction n as [|n IH]; [reflexivity|].
  rewrite seq_S, map_app, sum_Z_app, IH. simpl map. simpl sum_Z.
  replace (Z.of_nat (S n)) with (Z.of_nat n + 1) by lia.
  rewrite (div_succ (Z.of_nat n) 10) by lia. lia.
Qed.

(** X18.  Optimiser steps of a run: the sum over all windows of all epochs
    of [ceil(seq_length / T)]. *)
Theorem main_optimizer_steps :
  0 < T ->
  optimizer_steps (trace final)
  = sum_Z (map (fun epoch =>
                  sum_Z (map (fun w => ceil_div (window_length w) T)
                             (train_dataloader epoch)))
               (range epochs)).
Proof.
  intros HT. destruct (main_final HT) as (mid & _ & _ & _ & Hc).
  rewrite optimizer_steps_count, Hc.
  apply main_census_update; [exact HT | reflexivity].
Qed.

(** X19.  Every optimiser step of a run comes with one [zero_grad], one
    [backward] and one step of the learning-rate scheduler. *)
Theorem main_update_calls_agree :
  0 < T ->
  count KZeroGrad (trace final) = count KOptimizerStep (trace final) /\
  count KBackward (trace final) = count KOptimizerStep (trace final) /\
  count KLrSchedulerStep (trace final) = count KOptimizerStep (trace final).
Proof.
  intros HT. destruct (main_final HT) as (mid & _ & _ & _ & Hc).
  rewrite !Hc.
  rewrite !main_census_update by (exact HT || reflexivity).
  auto.
Qed.

(** X20.  The summary writer: created and written to on rank 0 only, five
    scalars per time step. *)
Theorem main_writer_calls :
  0 < T ->
  count KNewSummaryWriter (trace final) = (if rank =? 0 then 1 else 0) /\
  count KAddScalar (trace final)
  = (if rank =? 0 then 5 * total_steps epochs train_dataloader else 0).
Proof.
  intros HT. destruct (main_final HT) as (mid & _ & _ & _ & Hc).
  rewrite !Hc. split.
  - unfold main_census, epoch_census.
    change (count KNewSummaryWriter [Setup]) with 0.
    change (count KNewSummaryWriter [Cleanup]) with 0.
    change (count KNewSummaryWriter [NewSummaryWriter]) with 1.
    rewrite (sum_Z_map_ext _ (fun _ => 0)), sum_Z_map_zero; [lia|].
    intros e _.
    change (count KNewSummaryWriter [SetEpoch e]) with 0.
    change (count KNewSummaryWriter [PyPrint "skipping val..."]) with 0.
    rewrite (sum_Z_map_ext _ (fun _ => 0)), sum_Z_map_zero.
    + destruct (_ =? 0); reflexivity.
    + intros w _. unfold window_census.
      rewrite step_kind_value, boundary_kind_value, update_kind_value.
      change (count KNewSummaryWriter [ZerosHidden]) with 0.
      destruct (_ =? 0); lia.
  - rewrite (main_census_per_step KAddScalar (if rank =? 0 then 5 else 0));
      try reflexivity.
    + destruct (rank =? 0); lia.
    + intros n. unfold window_census.
      rewrite step_kind_value, boundary_kind_value, update_kind_value.
      change (count KAddScalar [ZerosHidden]) with 0.
      destruct (n mod T =? 0); destruct (rank =? 0); lia.
Qed.

(** X21.  The step counter ends at the number of time steps of the run, one
    per forward pass; it is never reset between windows or epochs. *)
Theorem main_step_counter :
  0 < T ->
  num_steps final = total_steps epochs train_dataloader /\
  count KModelForward (trace final) = total_steps epochs train_dataloader.
Proof.
  intros HT. destruct (main_final HT) as (mid & _ & _ & Hn & Hc).
  split; [exact Hn|]. rewrite Hc.
  rewrite (main_census_per_step KModelForward 1); try reflexivity; [lia|].
  intros n. unfold window_census.
  rewrite step_kind_value, boundary_kind_value, update_kind_value.
  change (count KModelForward [ZerosHidden]) with 0.
  destruct (n mod T =? 0); lia.
Qed.

(** X22.  The message "skipping val..." is printed on every tenth epoch. *)
Theorem main_skip_messages :
  0 < T -> 0 <= epochs ->
  count KPyPrint (trace final) = epochs / 10.
Proof.
  intros HT He. destruct (main_final HT) as (mid & _ & _ & _ & Hc).
  rewrite Hc. unfold main_census, epoch_census.
  change (count KPyPrint [Setup]) with 0.
  change (count KPyPrint [Cleanup]) with 0.
  change (count KPyPrint [NewSummaryWriter]) with 0.
  change (count KPyPrint [PyPrint "skipping val..."]) with 1.
  replace (if rank =? 0 then 0 else 0) with 0
    by (destruct (rank =? 0); reflexivity).
  rewrite !Z.add_0_l, Z.add_0_r.
  rewrite (sum_Z_map_ext _
             (fun e => if (Z.of_nat e + 1) mod 10 =? 0 then 1 else 0)).
  - unfold range. rewrite skip_count. rewrite Z2Nat.id by exact He.
    reflexivity.
  - intros e _.
    change (count KPyPrint [SetEpoch e]) with 0.
    rewrite (sum_Z_map_ext _ (fun _ => 0)), sum_Z_map_zero; [lia|].
    intros w _. unfold window_census.
    rewrite step_kind_value, boundary_kind_value, update_kind_value.
    change (count KPyPrint [ZerosHidden]) with 0.
    destruct (_ =? 0); lia.
Qed.

(** X23.  The hidden state of a window: zeroed once, at its start, and
    detached at the multiples of [T] only, not after the update of a
    final shorter segment. *)
Theorem train_window_hidden_state (data : window) (s : state) :
  0 < T ->
  exists s' evs,
    train_window rank T data s = (Normal, s') /\
    trace s' = trace s ++ evs /\
    count KZerosHidden evs = 1 /\
    count KDetach evs = window_length data / T.
Proof.
  intros HT.
  destruct (effect_train_window rank T data HT s)
    as (s' & evs & Hrun & Htr & _ & Hc).
  exists s', evs. split; [exact Hrun|]. split; [exact Htr|].
  rewrite !Hc. unfold window_census.
  rewrite !step_kind_value, !boundary_kind_value, !update_kind_value.
  change (count KZerosHidden [ZerosHidden]) with 1.
  change (count KDetach [ZerosHidden]) with 0.
  destruct (_ =? 0); lia.
Qed.

End MainCensus.

Section MainCensusExamples.

Import Train.
Import Census.
Import TrainExamples.
Open Scope Z_scope.

Lemma main_optimizer_steps_witness :
  0 < optimize_per_n_step SequenceBaselineV1_init /\
  optimizer_steps
    (trace (snd (main 0 SequenceBaselineV1_init 2 two_windows [tt]
                      init_state)))
  = 4.
Proof.
  split; [simpl; lia|].
  apply (main_optimizer_steps 0 SequenceBaselineV1_init 2 two_windows [tt]).
  simpl. lia.
Defined.

Lemma main_update_calls_agree_witness :
  0 < optimize_per_n_step SequenceBaselineV1_init /\
  let tr := trace (snd (main 0 SequenceBaselineV1_init 2 two_windows [tt]
                             init_state)) in
  count KZeroGrad tr = count KOptimizerStep tr /\
  count KBackward tr = count KOptimizerStep tr /\
  count KLrSchedulerStep tr = count KOptimizerStep tr.
Proof.
  split; [simpl; lia|].
  apply (main_update_calls_agree 0 SequenceBaselineV1_init 2 two_windows [tt]).
  simpl. lia.
Defined.

Lemma main_writer_calls_witness :
  0 < optimize_per_n_step SequenceBaselineV1_init /\
  let tr := trace (snd (main 1 SequenceBaselineV1_init 2 two_windows [tt]
                             init_state)) in
  count KNewSummaryWriter tr = 0 /\ count KAddScalar tr = 0.
Proof.
  split; [simpl; lia|].
  apply (main_writer_calls 1 SequenceBaselineV1_init 2 two_windows [tt]).
  simpl. lia.
Defined.

Lemma main_step_counter_witness :
  0 < optimize_per_n_step SequenceBaselineV1_init /\
  let final := snd (main 0 SequenceBaselineV1_init 2 two_windows [tt]
                         init_state) in
  num_steps final = 94 /\ count KModelForward (trace final) = 94.
Proof.
  split; [simpl; lia|].
  apply (main_step_counter 0 SequenceBaselineV1_init 2 two_windows [tt]).
  simpl. lia.
Defined.

Lemma main_skip_messages_witness :
  0 < optimize_per_n_step SequenceBaselineV1_init /\ 0 <= 25 /\
  count KPyPrint
    (trace (snd (main 0 SequenceBaselineV1_init 25 (fun _ => []) [tt]
                      init_state)))
  = 2.
Proof.
  split; [simpl; lia|]. split; [lia|].
  apply (main_skip_messages 0 SequenceBaselineV1_init 25 (fun _ => []) [tt]);
    simpl; lia.
Defined.

Lemma train_window_hidden_state_witness :
  0 < optimize_per_n_step SequenceBaselineV1_init /\
  exists s' evs,
    train_window 0 (optimize_per_n_step SequenceBaselineV1_init)
                 (repeat (Finite 1) 87) init_state = (Normal, s') /\
    trace s' = trace init_state ++ evs /\
    count KZerosHidden evs = 1 /\
    count KDetach evs = 2.
Proof.
  split; [simpl; lia|].
  apply (train_window_hidden_state 0 SequenceBaselineV1_init
                                   (repeat (Finite 1%R) 87) init_state).
  simpl. lia.
Defined.

End MainCensusExamples.

(** ** The total handed to [backward] *)

Section SegmentTotal.

Import Train.
Import Census.
Import Accumulator.
Open Scope Z_scope.

Lemma backward_totals_app (a b : list event) :
  backward_totals (a ++ b) = backward_totals a ++ backward_totals b.
Proof. unfold backward_totals. apply flat_map_app. Qed.

Lemma backward_totals_step_events (rank n : Z) (t : nat) :
  backward_totals (step_events rank n t) = [].
Proof. unfold step_events. destruct (rank =? 0); reflexivity. Qed.

Lemma total_add_val_finite (v : py_total) (x : R) (T : Z) :
  T <> 0 -> finite_total v ->
  total_add_val v (fdiv_int (Finite x) T)
  = Finite (value_of v + x / IZR T).
Proof.
  intros HT Hv. unfold fdiv_int.
  destruct (Z.eqb_spec T 0); [contradiction|].
  destruct v as [m|[a|]]; simpl in *; [reflexivity | reflexivity | tauto].
Qed.

(** The loop over a segment that reaches at most the next multiple of
    [T]: the losses, each divided by [T], are added to the running
    total; the sum is applied if the multiple is reached and is left
    pending otherwise. *)
Lemma segment_loop (rank T : Z) :
  0 < T ->
  forall (xs : list R) (t : nat) (s : state),
    finite_total (total_loss s) ->
    Z.of_nat t + Z.of_nat (List.length xs) <= T ->
    xs <> [] ->
    exists s' evs,
      for_each (enumerate_from t (map Finite xs)) (train_step rank T) s
        = (Normal, s') /\
      trace s' = trace s ++ evs /\
      (Z.of_nat t + Z.of_nat (List.length xs) = T ->
       total_loss s' = PyInt 0 /\
       backward_totals evs
       = [Finite (accumulate T (value_of (total_loss s)) xs)]) /\
      (Z.of_nat t + Z.of_nat (List.length xs) < T ->
       total_loss s'
       = Tensor (Finite (accumulate T (value_of (total_loss s)) xs)) /\
       backward_totals evs = []).
Proof.
  intros HT. induction xs as [|x rest IH]; intros t s Hfin Hlen Hne;
    [contradiction|].
  simpl map. simpl enumerate_from. simpl for_each.
  rewrite train_step_run by lia. cbv zeta.
  rewrite total_add_val_finite by (lia || exact Hfin).
  simpl List.length in *.
  destruct (Z.eqb_spec ((Z.of_nat t + 1) mod T) 0) as [H0|H0].
  - assert (Hlast : Z.of_nat t + 1 = T).
    { destruct (Z.eq_dec (Z.of_nat t + 1) T) as [E|E]; [exact E|].
      rewrite Z.mod_small in H0 by lia. lia. }
    destruct rest as [|y rest]; [|simpl List.length in Hlen; lia].
    cbn [map enumerate_from for_each List.length].
    eexists.
    exists (step_events rank (num_steps s + 1) t
            ++ Detach :: update_events
                 (Finite (value_of (total_loss s) + x / IZR T))).
    split; [reflexivity|]. cbn [trace total_loss].
    split; [reflexivity|]. split.
    + intros _. split; [reflexivity|].
      rewrite backward_totals_app, backward_totals_step_events.
      reflexivity.
    + intros Hlt. simpl in Hlt. lia.
  - assert (Hnot : Z.of_nat t + 1 <> T).
    { intros E. rewrite E, Z.mod_same in H0 by lia. contradiction. }
    destruct rest as [|y rest].
    + cbn [map enumerate_from for_each List.length].
      eexists. exists (step_events rank (num_steps s + 1) t).
      split; [reflexivity|]. cbn [trace total_loss].
      split; [reflexivity|]. split; [intros E; simpl in E; lia|].
      intros _. split; [reflexivity|]. apply backward_totals_step_events.
    + match goal with |- context [for_each _ _ ?s0] =>
        destruct (IH (S t) s0) as (s' & evs & Hrun & Htr & Hat & Hbelow)
      end.
      { exact I. }
      { simpl List.length in *. lia. }
      { discriminate. }
      cbn [trace total_loss value_of] in Htr, Hat, Hbelow.
      exists s'. eexists. split; [exact Hrun|].
      split; [rewrite Htr, <- app_assoc; reflexivity|].
      split.
      * intros E. destruct Hat as [Htot Hb]; [simpl List.length in *; lia|].
        split; [exact Htot|].
        rewrite backward_totals_app, backward_totals_step_events, Hb.
        reflexivity.
      * intros E. destruct Hbelow as [Htot Hb]; [simpl List.length in *; lia|].
        split; [exact Htot|].
        rewrite backward_totals_app, backward_totals_step_events, Hb.
        reflexivity.
Qed.

(** X24.  A window no longer than [T], with finite losses: one [backward],
    on the sum of the losses each divided by [T], also when the
    window has fewer than [T] steps. *)
Theorem train_window_single_segment (rank T : Z) (xs : list R) (s : state) :
  0 < T ->
  xs <> [] ->
  Z.of_nat (List.length xs) <= T ->
  exists s' evs,
    train_window rank T (map Finite xs) s = (Normal, s') /\
    trace s' = trace s ++ evs /\
    backward_totals evs = [Finite (accumulate T 0 xs)].
Proof.
  intros HT Hne Hlen. rewrite train_window_run.
  match goal with |- context [for_each _ _ ?s0] =>
    destruct (segment_loop rank T HT xs 0 s0)
      as (s1 & evs & Hrun & Htr & Hat & Hbelow)
  end.
  { exact I. }
  { simpl. lia. }
  { exact Hne. }
  rewrite Hrun. cbn [trace total_loss value_of] in Htr, Hat, Hbelow.
  change (Z.of_nat 0) with 0 in Hat, Hbelow.
  rewrite Z.add_0_l in Hat, Hbelow.
  destruct (Z.eq_dec (Z.of_nat (List.length xs)) T) as [E|E].
  - destruct (Hat E) as [Htot Hb]. rewrite Htot.
    exists s1, ([ZerosHidden] ++ evs).
    split; [reflexivity|].
    split; [rewrite Htr, <- app_assoc; reflexivity|].
    rewrite backward_totals_app, Hb. reflexivity.
  - destruct Hbelow as [Htot Hb]; [lia|]. rewrite Htot.
    eexists. eexists. split; [reflexivity|]. cbn [trace].
    split; [rewrite Htr, <- !app_assoc; reflexivity|].
    rewrite !backward_totals_app, Hb. reflexivity.
Qed.

Lemma train_window_single_segment_witness :
  0 < 40 /\ [3; 5]%R <> [] /\ Z.of_nat (List.length [3; 5]%R) <= 40 /\
  exists s' evs,
    train_window 0 40 (map Finite [3; 5]%R) init_state = (Normal, s') /\
    trace s' = trace init_state ++ evs /\
    backward_totals evs = [Finite (0 + 3 / 40 + 5 / 40)%R].
Proof.
  split; [lia|]. split; [discriminate|]. split; [simpl; lia|].
  apply (train_window_single_segment 0 40 [3; 5]%R init_state);
    [lia | discriminate | simpl; lia].
Defined.

End SegmentTotal.

(** ** Examples for the sampler and the label shapes *)

Section SamplerExamples.

Import Comma2k19SequenceDataset.
Import Examples.
Open Scope Z_scope.

Lemma sample_window_succeeds_witness :
  40 + 10 < 51 /\ exists w, sample_window 123 51 40 10 = Ok w.
Proof.
  split; [lia|].
  apply (sample_window_succeeds 123 51 40 10). lia.
Defined.

Lemma sample_window_onto_witness :
  1 <= 11 <= 61 - 40 - 10 /\
  sample_window (11 - 1) 61 40 10 = Ok (11, 11 + 40).
Proof.
  split; [lia|].
  apply (sample_window_onto 61 40 10 11). lia.
Defined.

Lemma getitem_label_length_witness :
  exists labels label,
    getitem (init 20) 0 true 61 straight_positions straight_orientations
      = Ok labels /\
    In label labels /\
    (List.length label <= 10)%nat.
Proof.
  eexists. eexists.
  assert (H1 : getitem (init 20) 0 true 61 straight_positions
                       straight_orientations
               = Ok (match getitem (init 20) 0 true 61 straight_positions
                                   straight_orientations with
                     | Ok l => l
                     | Raise _ => []
                     end))
    by (vm_compute; reflexivity).
  split; [exact H1|].
  assert (H2 : In (slice (map (fun p => mat_vec
                                 (transpose (orient.rot_from_quat q_identity))
                                 (vsub p (mkvec (INR 1) 0 0)))
                              (slice straight_positions 1 61)) 0 10)
                  (match getitem (init 20) 0 true 61 straight_positions
                                 straight_orientations with
                   | Ok l => l
                   | Raise _ => []
                   end))
    by (left; reflexivity).
  split; [exact H2|].
  exact (getitem_label_length (init 20) 0 61 straight_positions
                              straight_orientations _ _ H1 H2).
Defined.

End SamplerExamples.
